(** * A shallow embedding of the reading-list API

    The development follows the layout of the repository:

    - [JS]         the JavaScript values the handlers see (JSON bodies, query
                   strings, BSON documents), truthiness, property access and
                   [String.prototype.trim];
    - [Eff]        exceptions, the state a request runs against, and the
                   state-and-exception monad the handlers are written in;
    - [Mongoose]   the document-store layer the controllers call into,
                   driven by a schema;
    - [Book]       the schema and the model of [src/models/Book.js];
    - [Express]    requests, responses and identifier resolution;
    - [Controller] the five handlers of [src/controllers/bookController.js];
    - [Middleware] [notFound] and [onError] of [src/middlewares/error.js];
    - [App]        how [server.js] mounts a handler before the error
                   middleware.

    [Sample] and [Spec] hold the data of the closed examples and the
    vocabulary of the statements; the properties follow, grouped by
    operation. *)

From Stdlib Require Import QArith Qround.
From stdpp Require Import gmap list strings.

Set Warnings "-register-all".

Local Open Scope N_scope.

(** ** JavaScript values *)

Module JS.

(** A JavaScript string is a sequence of UTF-16 code units. *)
Definition text := list N.

(** String literals of the source are ASCII (or Latin-1) and are written
    with [txt]. *)
Definition txt (s : string) : text :=
  map (λ a, N.of_nat (Ascii.nat_of_ascii a)) (String.list_ascii_of_string s).
Arguments txt s%_string.

(** [parts.join(sep)] *)
Fixpoint join (sep : text) (parts : list text) : text :=
  match parts with
  | [] => []
  | [p] => p
  | p :: rest => p ++ sep ++ join sep rest
  end.

(** A JavaScript number: the finite doubles are rationals, which is all the
    comparisons of the handlers and of the schema validators look at. *)
Inductive num :=
  | NaN
  | Inf (negative : bool)
  | Fin (q : Q).

Definition isFinite (n : num) : bool :=
  match n with Fin _ => true | _ => false end.

(** [a > b], [a >= b] and [a <= b] on numbers; any comparison with [NaN] is
    false. *)
Definition gt (a b : num) : bool :=
  match a, b with
  | NaN, _ | _, NaN => false
  | Inf true, _ => false
  | Inf false, Inf false => false
  | Inf false, _ => true
  | Fin _, Inf n => n
  | Fin x, Fin y => negb (Qle_bool x y)
  end.

Definition ge (a b : num) : bool :=
  match a, b with
  | NaN, _ | _, NaN => false
  | Inf false, _ => true
  | Inf true, Inf true => true
  | Inf true, _ => false
  | Fin _, Inf n => n
  | Fin x, Fin y => Qle_bool y x
  end.

Definition le (a b : num) : bool := ge b a.

Definition of_Z (z : Z) : num := Fin (inject_Z z).

(** [a - b] and [a * b], used for the offset of a page.  The handlers only
    reach them with finite operands. *)
Definition sub (a b : num) : num :=
  match a, b with
  | Fin x, Fin y => Fin (x - y)
  | NaN, _ | _, NaN => NaN
  | Inf s, Inf s' => if Bool.eqb s s' then NaN else Inf s
  | Inf s, Fin _ => Inf s
  | Fin _, Inf s => Inf (negb s)
  end.

Definition mul (a b : num) : num :=
  match a, b with
  | Fin x, Fin y => Fin (x * y)
  | _, _ => NaN
  end.

(** Values: JSON as [express.json()] and the query-string parser produce it,
    extended with the two BSON types stored documents carry (identifiers and
    dates). Objects keep their properties in insertion order. *)
Inductive value :=
  | VUndef
  | VNull
  | VBool (b : bool)
  | VNum (n : num)
  | VStr (s : text)
  | VArr (l : list value)
  | VObj (o : list (text * value))
  | VOid (i : N)
  | VDate (t : N).

Definition object := list (text * value).

(** [ToBoolean]: what [if (x)] and [!x] test. *)
Definition truthy (v : value) : bool :=
  match v with
  | VUndef | VNull => false
  | VBool b => b
  | VNum NaN => false
  | VNum (Inf _) => true
  | VNum (Fin q) => negb (Qeq_bool q 0)
  | VStr s => negb (bool_decide (s = []))
  | VArr _ | VObj _ | VOid _ | VDate _ => true
  end.

(** Own-property lookup in an object literal: the first binding of the key,
    [undefined] when there is none. *)
Fixpoint lookup_prop (k : text) (o : object) : value :=
  match o with
  | [] => VUndef
  | (k', v) :: o' => if bool_decide (k = k') then v else lookup_prop k o'
  end.

(** [o[k] = v]: overwrite in place, or append a new property. *)
Fixpoint assign_prop (k : text) (v : value) (o : object) : object :=
  match o with
  | [] => [(k, v)]
  | (k', v') :: o' =>
      if bool_decide (k = k') then (k, v) :: o' else (k', v') :: assign_prop k v o'
  end.

(** [delete o[k]]. *)
Fixpoint delete_prop (k : text) (o : object) : object :=
  match o with
  | [] => []
  | (k', v) :: o' =>
      if bool_decide (k = k') then delete_prop k o' else (k', v) :: delete_prop k o'
  end.

(** [v.k] for a name [k] that no prototype defines (none of [title],
    [author], [status], [rating], [notes], [tags] is a property of
    [Object.prototype], [Array.prototype] or of a primitive wrapper):
    [None] when [v] is [undefined] or [null], where the access throws. *)
Definition get_prop (v : value) (k : text) : option value :=
  match v with
  | VUndef | VNull => None
  | VObj o => Some (lookup_prop k o)
  | _ => Some VUndef
  end.

(** White space and line terminators, the code units [trim] strips. *)
Definition is_space (c : N) : bool :=
  bool_decide (c ∈ [9; 10; 11; 12; 13; 32; 160; 5760; 8232; 8233; 8239; 8287;
                    12288; 65279])
  || ((8192 <=? c) && (c <=? 8202)).

Fixpoint trimStart (s : text) : text :=
  match s with
  | c :: s' => if is_space c then trimStart s' else s
  | [] => []
  end.

Definition trimEnd (s : text) : text := rev (trimStart (rev s)).

Definition trim (s : text) : text := trimEnd (trimStart s).

End JS.

(** ** Exceptions and the handler monad *)

Module Eff.
Import JS.

(** What a handler can throw: the two JavaScript errors the controllers can
    provoke themselves, and the errors of the document-store layer. *)
Inductive exn :=
  | ReferenceError (name : text)
  | TypeError (what : text)
  | CastError (path : text)
  | ValidationError (paths : list text)
  | MongoServerError (code : N)
  | EngineError (what : text).

(** [err.status]: none of these error classes defines the property. *)
Definition status (e : exn) : value := VUndef.

(** [err.message]; the wording of library messages is abbreviated to the
    part that identifies the failure. *)
Definition message (e : exn) : text :=
  match e with
  | ReferenceError x => x ++ txt " is not defined"
  | TypeError what => what
  | CastError p => txt "Cast failed at path " ++ p
  | ValidationError ps =>
      txt "Book validation failed: "
      ++ join (txt ", ") ps
  | MongoServerError _ => txt "MongoServerError"
  | EngineError what => what
  end.

(** A command sent to the database server. *)
Inductive command :=
  | InsertOne (doc : object)
  | Find (filter sort : value) (skip limit : num)
  | CountDocuments (filter : value)
  | FindOne (id : N)
  | FindOneAndUpdate (id : N) (set : object)
  | FindOneAndDelete (id : N).

(** The state a request runs against: the [books] collection keyed by
    [_id], the clock, the counter behind [new ObjectId()], and the commands
    the server has received so far (most recent first). *)
Record world := World {
  docs : gmap N object;
  now : N;
  nextId : N;
  sent : list command;
}.

(** State plus exceptions: a computation ends with a value or throws, and
    leaves a world behind in both cases. *)
Definition M (A : Type) : Type := world → (A + exn) * world.

Definition ret {A} (a : A) : M A := λ w, (inl a, w).
Definition throw {A} (e : exn) : M A := λ w, (inr e, w).
Definition bind {A B} (m : M A) (k : A → M B) : M B :=
  λ w, match m w with
       | (inl a, w') => k a w'
       | (inr e, w') => (inr e, w')
       end.
Definition get : M world := λ w, (inl w, w).

Definition lift {A} (r : A + exn) : M A := λ w, (r, w).

Definition send (c : command) : M unit :=
  λ w, (inl tt, World (docs w) (now w) (nextId w) (c :: sent w)).

Definition set_docs (d : gmap N object) : M unit :=
  λ w, (inl tt, World d (now w) (nextId w) (sent w)).

End Eff.

Declare Scope eff_scope.
Delimit Scope eff_scope with eff.
Notation "x <- m ;; k" := (Eff.bind m (fun x => k))
  (at level 100, m at next level, right associativity) : eff_scope.
Notation "m ;;; k" := (Eff.bind m (fun _ => k))
  (at level 100, right associativity) : eff_scope.

Local Open Scope eff_scope.

(** ** The document-store layer

    The controllers delegate persistence, casting and validation to
    Mongoose. This module states the behaviour of the library the handlers
    rely on, for an arbitrary schema:
    - a new document takes the defaults of the paths nothing is supplied
      for, is cast and validated before it is inserted, and is never sent
      when validation fails;
    - a query by identifier casts the identifier first and throws a
      [CastError], without reaching the server, when it is not well formed;
    - an update is cast in strict mode (unknown keys are dropped), loses
      its immutable paths, has its validators run when [runValidators] is
      set, and refreshes [updatedAt];
    - the server keeps [_id] unique and refuses to change it. *)

Module Mongoose.
Import JS Eff.

(** The schema types [src/models/Book.js] uses, and the two Mongoose adds
    on its own ([_id] and the timestamps). *)
Inductive schematype := String_ | Number_ | StringArray | Date_ | ObjectId_.

(** Options of one schema path. *)
Record SchemaTypeOptions := {
  type : schematype;
  required : bool;
  trim : bool;
  enum : option (list text);
  default : value;
  min : option num;
  max : option num;
  immutable : bool;
}.

Record Schema := {
  paths : list (text * SchemaTypeOptions);
  timestamps : bool;
}.

(** The third argument of [findByIdAndUpdate]. *)
Record QueryOptions := { new : bool; runValidators : bool }.

(** What the library and the database server do beyond this model is a
    parameter of the development: conversions between JSON types
    (a number given for a string path, a numeric string for a number path,
    ...), the evaluation of a query filter with sort, skip and limit, and
    updates written with update operators, dotted paths or pipelines. *)
Class Engine := {
  castForeign : schematype → value → option value;
  execFind : value → value → num → num → gmap N object → list object + exn;
  execCount : value → gmap N object → num + exn;
  execUpdate : N → value → QueryOptions → M (option object);
}.

(** An identifier is written as 24 hexadecimal digits (earlier drivers
    also took any string of 12 characters for one). *)
Definition hex_digit (c : N) : option N :=
  if (48 <=? c) && (c <=? 57) then Some (c - 48)
  else if (97 <=? c) && (c <=? 102) then Some (c - 87)
  else if (65 <=? c) && (c <=? 70) then Some (c - 55)
  else None.

Fixpoint hex_value (acc : N) (s : text) : option N :=
  match s with
  | [] => Some acc
  | c :: s' =>
      match hex_digit c with
      | Some d => hex_value (16 * acc + d) s'
      | None => None
      end
  end.

Definition castObjectId (s : text) : option N :=
  if bool_decide (length s = 24%nat) then hex_value 0 s else None.

(** [id.toHexString()]: how an identifier appears in a JSON response. *)
Definition hex_char (d : N) : N := if d <? 10 then 48 + d else 87 + d.

Fixpoint hex_digits (n : nat) (i : N) (acc : text) : text :=
  match n with
  | O => acc
  | S n' => hex_digits n' (i / 16) (hex_char (i mod 16) :: acc)
  end.

Definition toHexString (i : N) : text := hex_digits 24 i [].

Definition _id := txt "_id".
Definition __v := txt "__v".
Definition createdAt := txt "createdAt".
Definition updatedAt := txt "updatedAt".

(** The [_id] of a stored document. *)
Definition id_of (d : object) : option N :=
  match lookup_prop _id d with
  | VOid i => Some i
  | _ => None
  end.

Definition plain (t : schematype) : SchemaTypeOptions :=
  {| type := t; required := false; trim := false; enum := None;
     default := VUndef; min := None; max := None; immutable := false |}.

(** The paths of a compiled schema: the declared ones, [_id], the version
    key and, with [timestamps: true], [createdAt] (immutable) and
    [updatedAt]. *)
Definition all_paths (s : Schema) : list (text * SchemaTypeOptions) :=
  paths s
  ++ [(_id, plain ObjectId_); (__v, plain Number_)]
  ++ (if timestamps s
      then [(createdAt,
             {| type := Date_; required := false; trim := false; enum := None;
                default := VUndef; min := None; max := None;
                immutable := true |});
            (updatedAt, plain Date_)]
      else []).

(** [schema.path(name)]: the options of a path, if the schema has it. *)
Fixpoint schema_path (name : text) (ps : list (text * SchemaTypeOptions))
  : option SchemaTypeOptions :=
  match ps with
  | [] => None
  | (n, o) :: ps' => if bool_decide (name = n) then Some o else schema_path name ps'
  end.

Definition has_type (t : schematype) (v : value) : bool :=
  match t, v with
  | String_, VStr _ => true
  | Number_, VNum NaN => false
  | Number_, VNum _ => true
  | StringArray, VArr l =>
      forallb (λ x, match x with VStr _ | VNull => true | _ => false end) l
  | Date_, VDate _ => true
  | ObjectId_, VOid _ => true
  | _, VNull => true
  | _, _ => false
  end.

Section WithEngine.
Context `{Engine}.

(** A conversion the engine proposes is kept only when its result has the
    type of the path. *)
Definition convert (t : schematype) (v : value) : option value :=
  match castForeign t v with
  | Some v' => if has_type t v' then Some v' else None
  | None => None
  end.

Definition cast_element (v : value) : option value :=
  match v with
  | VStr _ | VNull => Some v
  | _ => convert String_ v
  end.

(** Casting a supplied value to the type of its path; [None] is a cast
    failure. Values already of the right type are kept, [null] is kept, a
    single value given for an array path is wrapped. *)
Definition cast (t : schematype) (v : value) : option value :=
  match t, v with
  | _, VNull => Some VNull
  | String_, VStr _ => Some v
  | Number_, VNum NaN => None
  | Number_, VNum _ => Some v
  | Date_, VDate _ => Some v
  | ObjectId_, VOid _ => Some v
  | ObjectId_, VStr s => VOid <$> castObjectId s
  | StringArray, VArr l => VArr <$> mapM cast_element l
  | StringArray, _ => (λ x, VArr [x]) <$> cast_element v
  | _, _ => convert t v
  end.

(** Setters: [trim: true] trims strings. *)
Definition apply_setters (o : SchemaTypeOptions) (v : value) : value :=
  match v with
  | VStr s => if trim o then VStr (JS.trim s) else v
  | _ => v
  end.

(** Validators: [required] (for a string: present and not empty), [enum],
    [min] and [max]; the last three let [null] and [undefined] pass. *)
Definition validate (o : SchemaTypeOptions) (v : value) : bool :=
  (if required o
   then match v with
        | VUndef | VNull => false
        | VStr s => negb (bool_decide (s = []))
        | _ => true
        end
   else true)
  && match enum o, v with
     | Some allowed, VStr s => bool_decide (s ∈ allowed)
     | _, _ => true
     end
  && match min o, v with
     | Some m, VNum n => ge n m
     | _, _ => true
     end
  && match max o, v with
     | Some m, VNum n => le n m
     | _, _ => true
     end.

(** *** [new Model(obj)] followed by [validate()] *)

(** One path of a new document: the default when nothing is supplied, the
    cast and set value otherwise; [inr] names a path that fails its cast or
    a validator. *)
Definition hydrate_path (obj : object) (p : text * SchemaTypeOptions)
  : option (text * value) + text :=
  let supplied := lookup_prop p.1 obj in
  let stored :=
    match supplied with
    | VUndef => Some (default p.2)
    | _ => apply_setters p.2 <$> cast (type p.2) supplied
    end in
  match stored with
  | Some v =>
      if validate p.2 v
      then inl (match v with VUndef => None | _ => Some (p.1, v) end)
      else inr p.1
  | None => inr p.1
  end.

Fixpoint hydrate (ps : list (text * SchemaTypeOptions)) (obj : object)
  : object * list text :=
  match ps with
  | [] => ([], [])
  | p :: ps' =>
      let '(fields, bad) := hydrate ps' obj in
      match hydrate_path obj p with
      | inl (Some f) => (f :: fields, bad)
      | inl None => (fields, bad)
      | inr name => (fields, name :: bad)
      end
  end.

(** [new ObjectId()]: the next identifier of the process. *)
Definition newObjectId : M N :=
  λ w, (inl (nextId w), World (docs w) (now w) (nextId w + 1) (sent w)).

(** The server refuses a second document with the same [_id] (error
    11000). *)
Definition insertOne (id : N) (doc : object) : M unit :=
  send (InsertOne doc);;;
  w <- get;;
  match docs w !! id with
  | Some _ => throw (MongoServerError 11000)
  | None => set_docs (<[id := doc]> (docs w))
  end.

(** [Model.create(obj)]: build the document, validate it, stamp it and
    insert it. A document that fails validation is never sent. *)
Definition create (s : Schema) (obj : object) : M object :=
  id <- newObjectId;;
  match hydrate (paths s) obj with
  | (fields, []) =>
      w <- get;;
      let doc :=
        fields ++ [(_id, VOid id)]
        ++ (if timestamps s
            then [(createdAt, VDate (now w)); (updatedAt, VDate (now w))]
            else [])
        ++ [(__v, VNum (of_Z 0))] in
      insertOne id doc;;;
      ret doc
  | (_, bad) => throw (ValidationError bad)
  end.

(** *** Queries by identifier *)

(** Casting the filter [{ _id: id }]: an identifier that is not well formed
    is a [CastError], raised before anything is sent. *)
Definition castFilterId (id : text) : M N :=
  match castObjectId id with
  | Some i => ret i
  | None => throw (CastError _id)
  end.

Definition findById (id : text) : M (option object) :=
  i <- castFilterId id;;
  send (FindOne i);;;
  w <- get;;
  ret (docs w !! i).

Definition findByIdAndDelete (id : text) : M (option object) :=
  i <- castFilterId id;;
  send (FindOneAndDelete i);;;
  w <- get;;
  set_docs (delete i (docs w));;;
  ret (docs w !! i).

(** *** [findByIdAndUpdate] *)

(** A partial update is a plain mapping from field names to new values
    when no key is an update operator ([$set], [$inc], ...) or a dotted
    path. *)
Definition plain_key (k : text) : bool :=
  match k with
  | 36 :: _ => false
  | _ => negb (bool_decide (46 ∈ k))
  end.

Definition plain_update (u : value) : option object :=
  match u with
  | VObj o => if forallb plain_key o.*1 then Some o else None
  | _ => None
  end.

(** With [timestamps: true] the update loses any [createdAt] and
    [updatedAt] of its own before it is cast; [updatedAt] is then set to the
    current time. *)
Definition applyTimestampsToUpdate (s : Schema) (u : object) : object :=
  if timestamps s then delete_prop updatedAt (delete_prop createdAt u) else u.

(** Casting an update path by path: keys outside the schema are dropped
    (strict mode), immutable paths are dropped, a value that cannot be cast
    is a [CastError]. *)
Fixpoint castUpdate (ps : list (text * SchemaTypeOptions)) (u : object)
  : object + exn :=
  match ps with
  | [] => inl []
  | (name, o) :: ps' =>
      match lookup_prop name u with
      | VUndef => castUpdate ps' u
      | v =>
          if immutable o then castUpdate ps' u
          else match cast (type o) v with
               | None => inr (CastError name)
               | Some v' =>
                   match castUpdate ps' u with
                   | inl set => inl ((name, apply_setters o v') :: set)
                   | inr e => inr e
                   end
               end
      end
  end.

(** Update validators run the validators of every path the update sets. *)
Fixpoint invalid_paths (ps : list (text * SchemaTypeOptions)) (set : object)
  : list text :=
  match ps with
  | [] => []
  | (name, o) :: ps' =>
      match lookup_prop name set with
      | VUndef => invalid_paths ps' set
      | v => if validate o v then invalid_paths ps' set
             else name :: invalid_paths ps' set
      end
  end.

Definition runUpdateValidators (s : Schema) (set : object) : M unit :=
  match invalid_paths (all_paths s) set with
  | [] => ret tt
  | bad => throw (ValidationError bad)
  end.

(** The server applies the assignments to the matching document, and
    refuses an update that would change its [_id] (error 66). *)
Definition findOneAndUpdate (i : N) (set : object) (returnNew : bool)
  : M (option object) :=
  send (FindOneAndUpdate i set);;;
  w <- get;;
  match docs w !! i with
  | None => ret None
  | Some d =>
      let d' := foldl (λ acc kv, assign_prop kv.1 kv.2 acc) d set in
      if bool_decide (id_of d' = id_of d)
      then set_docs (<[i := d']> (docs w));;;
           ret (Some (if returnNew then d' else d))
      else throw (MongoServerError 66)
  end.

Definition findByIdAndUpdate (s : Schema) (id : text) (update : value)
    (opts : QueryOptions) : M (option object) :=
  i <- castFilterId id;;
  match plain_update update with
  | Some u =>
      w <- get;;
      set <- lift (castUpdate (all_paths s) (applyTimestampsToUpdate s u));;
      (if runValidators opts then runUpdateValidators s set else ret tt);;;
      findOneAndUpdate i
        (set ++ if timestamps s then [(updatedAt, VDate (now w))] else [])
        (new opts)
  | None => execUpdate i update opts
  end.

(** *** Queries by filter *)

Definition find (filter sort : value) (skip limit : num) : M (list object) :=
  send (Find filter sort skip limit);;;
  w <- get;;
  lift (execFind filter sort skip limit (docs w)).

Definition countDocuments (filter : value) : M num :=
  send (CountDocuments filter);;;
  w <- get;;
  lift (execCount filter (docs w)).

End WithEngine.
End Mongoose.

(** ** [src/models/Book.js] *)

Module Book.
Import JS Eff Mongoose.

Definition bookSchema : Schema := {|
  paths := [
    (txt "title",
     {| type := String_; required := true; trim := true; enum := None;
        default := VUndef; min := None; max := None; immutable := false |});
    (txt "author",
     {| type := String_; required := true; trim := true; enum := None;
        default := VUndef; min := None; max := None; immutable := false |});
    (txt "status",
     {| type := String_; required := false; trim := false;
        enum := Some [txt "to-read"; txt "reading"; txt "finished"];
        default := VStr (txt "to-read");
        min := None; max := None; immutable := false |});
    (txt "rating",
     {| type := Number_; required := false; trim := false; enum := None;
        default := VUndef; min := Some (of_Z 0); max := Some (of_Z 5);
        immutable := false |});
    (txt "notes",
     {| type := String_; required := false; trim := false; enum := None;
        default := VStr (txt ""); min := None; max := None;
        immutable := false |});
    (txt "tags",
     {| type := StringArray; required := false; trim := false; enum := None;
        default := VArr []; min := None; max := None; immutable := false |})
  ];
  timestamps := true;
|}.

Section WithEngine.
Context `{Engine}.

Definition create : object → M object := Mongoose.create bookSchema.
Definition find := Mongoose.find.
Definition countDocuments := Mongoose.countDocuments.
Definition findById := Mongoose.findById.
Definition findByIdAndUpdate := Mongoose.findByIdAndUpdate bookSchema.
Definition findByIdAndDelete := Mongoose.findByIdAndDelete.

End WithEngine.
End Book.

(** ** Requests and responses *)

Module Express.
Import JS Eff.

(** What a handler reads from [req]: the [:id] segment of the path (always
    a string), the parsed query string (always an object) and the body as
    [express.json()] left it. *)
Record request := {
  params_id : text;
  query : object;
  body : value;
}.

(** What a handler writes to [res]: a status code and a JSON body. *)
Record response := {
  code : N;
  json : value;
}.

(** [res.status(c).json(v)] and [res.json(v)] (status 200). *)
Definition res_status_json (c : N) (v : value) : M response :=
  ret {| code := c; json := v |}.
Definition res_json (v : value) : M response := res_status_json 200 v.

Definition handler := request → M response.

(** The built-in [Number(...)] conversion is a parameter: only the
    finiteness and the sign of its result matter to the handlers. *)
Class Builtins := { Number : value → num }.

(** Identifiers visible at a point of the program: [Const] for a binding
    whose value the model tracks, [Host] for functions, classes and the
    request and response objects, [Tdz] for a [const] of the enclosing block
    that is not initialised yet. *)
Inductive binding := Const (v : value) | Host | Tdz.
Definition scope := list (string * binding).

Fixpoint resolve (x : string) (sc : scope) : option binding :=
  match sc with
  | [] => None
  | (y, b) :: sc' => if bool_decide (x = y) then Some b else resolve x sc'
  end.

Fixpoint rebind (x : string) (b : binding) (sc : scope) : scope :=
  match sc with
  | [] => []
  | (y, b') :: sc' =>
      if bool_decide (x = y) then (y, b) :: sc' else (y, b') :: rebind x b sc'
  end.

(** Reading an identifier: a reference that resolves to nothing, or to a
    binding that is not initialised, throws. (A host binding has no value
    in the model and reads as [undefined].) *)
Definition reference (x : string) (sc : scope) : M value :=
  match resolve x sc with
  | Some (Const v) => ret v
  | Some Host => ret VUndef
  | Some Tdz | None => throw (ReferenceError (txt x))
  end.

(** [x.k = v]: [x] is read first, then the property is set on the object it
    holds (module code is strict: setting a property of a primitive
    throws). *)
Definition assign_member (x : string) (k : text) (v : value) (sc : scope)
  : M scope :=
  match resolve x sc with
  | Some (Const (VObj o)) => ret (rebind x (Const (VObj (assign_prop k v o))) sc)
  | Some (Const _) =>
      throw (TypeError (txt "Cannot create property on a primitive"))
  | Some Host => ret sc
  | Some Tdz | None => throw (ReferenceError (txt x))
  end.

End Express.

(** ** [src/controllers/bookController.js] *)

Module Controller.
Import JS Eff Express.

Definition error_body (msg : string) : value :=
  VObj [(txt "error", VStr (txt msg))].

(** Destructuring [const { ... } = v] throws when [v] is [undefined] or
    [null]. *)
Definition destructure (v : value) : M value :=
  match v with
  | VUndef | VNull =>
      throw (TypeError (txt "Cannot destructure property of undefined"))
  | _ => ret v
  end.

Definition prop (v : value) (k : string) : value :=
  match get_prop v (txt k) with
  | Some x => x
  | None => VUndef
  end.

(** [v.trim()]: the method exists on strings only. *)
Definition call_trim (v : value) : M value :=
  match v with
  | VStr s => ret (VStr (trim s))
  | _ => throw (TypeError (txt "trim is not a function"))
  end.

(** The bindings of the module: the import and the five exported
    functions, and the built-in the module uses. *)
Definition module_scope : scope :=
  [("Book", Host); ("createBook", Host); ("listBooks", Host);
   ("getBook", Host); ("updateBook", Host); ("removeBook", Host);
   ("Number", Host)].

Section Handlers.
Context `{Mongoose.Engine} `{Builtins}.

(** [POST /api/books] *)
Definition createBook : handler := λ req,
  b <- destructure (body req);;
  let title := prop b "title" in
  let author := prop b "author" in
  let status := prop b "status" in
  let rating := prop b "rating" in
  let notes := prop b "notes" in
  let tags := prop b "tags" in
  if negb (truthy title) || negb (truthy author)
  then res_status_json 400 (error_body "title y author son requeridos")
  else
    title' <- call_trim title;;
    author' <- call_trim author;;
    book <- Book.create
              [(txt "title", title'); (txt "author", author');
               (txt "status", status); (txt "rating", rating);
               (txt "notes", notes); (txt "tags", tags)];;
    res_status_json 201 (VObj book).

(** The bindings in force inside [listBooks]: the parameters, the ten
    constants the body declares (only those of lines 49 to 58 are
    initialised when the filter is built) and the bindings of the module.
    The declaration of line 71 is inside a comment, so nothing binds
    [filter]. *)
Definition listBooks_scope (q status tag : value)
    (page limit safePage safeLimit : num) : scope :=
  [("req", Host); ("res", Host);
   ("q", Const q); ("status", Const status); ("tag", Const tag);
   ("page", Const (VNum page)); ("limit", Const (VNum limit));
   ("safePage", Const (VNum safePage));
   ("safeLimit", Const (VNum safeLimit));
   ("skip", Tdz); ("items", Tdz); ("total", Tdz)]
  ++ module_scope.

Definition regex_i (q : value) : value :=
  VObj [(txt "$regex", q); (txt "$options", VStr (txt "i"))].

(** Lines 53 to 58: [page] and [limit] as numbers, then the values
    actually used. *)
Definition page (req : request) : num :=
  if truthy (lookup_prop (txt "page") (query req))
  then Number (lookup_prop (txt "page") (query req)) else of_Z 1.

Definition limit (req : request) : num :=
  if truthy (lookup_prop (txt "limit") (query req))
  then Number (lookup_prop (txt "limit") (query req)) else of_Z 50.

Definition safePage (req : request) : num :=
  if isFinite (page req) && gt (page req) (of_Z 0) then page req else of_Z 1.

Definition safeLimit (req : request) : num :=
  if isFinite (limit req) && gt (limit req) (of_Z 0)
  then limit req else of_Z 50.

(** [GET /api/books] *)
Definition listBooks : handler := λ req,
  let q := lookup_prop (txt "q") (query req) in
  let status := lookup_prop (txt "status") (query req) in
  let tag := lookup_prop (txt "tag") (query req) in
  let sc := listBooks_scope q status tag (page req) (limit req)
              (safePage req) (safeLimit req) in
  sc <- (if truthy q
         then assign_member "filter" (txt "$or")
                (VArr [VObj [(txt "title", regex_i q)];
                       VObj [(txt "author", regex_i q)]]) sc
         else ret sc);;
  sc <- (if truthy status
         then assign_member "filter" (txt "status") status sc
         else ret sc);;
  sc <- (if truthy tag
         then assign_member "filter" (txt "tags") tag sc
         else ret sc);;
  let skip := mul (sub (safePage req) (of_Z 1)) (safeLimit req) in
  filter <- reference "filter" sc;;
  items <- Book.find filter
             (VObj [(txt "createdAt", VNum (of_Z (-1)))]) skip (safeLimit req);;
  filter <- reference "filter" sc;;
  total <- Book.countDocuments filter;;
  res_json (VObj [(txt "total", VNum total);
                  (txt "page", VNum (safePage req));
                  (txt "limit", VNum (safeLimit req));
                  (txt "items", VArr (VObj <$> items))]).

(** [GET /api/books/:id] *)
Definition getBook : handler := λ req,
  let id := params_id req in
  book <- Book.findById id;;
  match book with
  | None => res_status_json 404 (error_body "Libro no encontrado")
  | Some b => res_json (VObj b)
  end.

(** [PATCH /api/books/:id] *)
Definition updateBook : handler := λ req,
  let id := params_id req in
  let updates := body req in
  book <- Book.findByIdAndUpdate id updates
            {| Mongoose.new := true; Mongoose.runValidators := true |};;
  match book with
  | None => res_status_json 404 (error_body "Libro no encontrado")
  | Some b => res_json (VObj b)
  end.

(** [DELETE /api/books/:id] *)
Definition removeBook : handler := λ req,
  let id := params_id req in
  deleted <- Book.findByIdAndDelete id;;
  match deleted with
  | None => res_status_json 404 (error_body "Libro no encontrado")
  | Some _ => res_json (VObj [(txt "ok", VBool true)])
  end.

End Handlers.
End Controller.

(** ** [src/middlewares/error.js] *)

Module Middleware.
Import JS Eff Express.

Definition notFound : response :=
  {| code := 404; json := Controller.error_body "Ruta no encontrada" |}.

(** [a || b] *)
Definition or_else (a b : value) : value := if truthy a then a else b.

(** The status line carries an integer. *)
Definition to_code (v : value) : N :=
  match v with
  | VNum (Fin q) => Z.to_N (Qfloor q)
  | _ => 500
  end.

Definition onError (err : exn) : response :=
  let code := to_code (or_else (status err) (VNum (of_Z 500))) in
  {| code := code;
     json := VObj [(txt "error",
                    VStr (if bool_decide (message err = [])
                          then txt "Error interno del servidor"
                          else message err))] |}.

End Middleware.

(** ** [server.js] *)

Module App.
Import JS Eff Express.

(** A request mounted on a route: the handler answers, or what it throws
    reaches [onError]. The error middleware is installed last and, as the
    comment on [onError] says, also receives the failures of [async]
    handlers; that is how the framework forwards a rejected handler. The
    logging done by [onError] and by [morgan] is not part of the model. *)
Definition serve (h : handler) (req : request) (w : world) : response * world :=
  match h req w with
  | (inl r, w') => (r, w')
  | (inr e, w') => (Middleware.onError e, w')
  end.

End App.

(** ** Sample data for the closed examples

    General statements quantify over every engine and every [Number]; the
    closed examples below run on an engine that refuses all conversions and
    on a [Number] that reads unsigned decimal integers only. *)

Module Sample.
Import JS Eff Mongoose Express.

Definition strictEngine : Engine := {|
  castForeign := λ _ _, None;
  execFind := λ _ _ _ _ _, inr (EngineError (txt "find"));
  execCount := λ _ _, inr (EngineError (txt "countDocuments"));
  execUpdate := λ _ _ _, throw (EngineError (txt "update operators"));
|}.

Fixpoint decimal (acc : Z) (s : text) : num :=
  match s with
  | [] => of_Z acc
  | c :: s' =>
      if (48 <=? c) && (c <=? 57)
      then decimal (10 * acc + Z.of_N (c - 48)) s'
      else NaN
  end.

Definition decimalNumber : Builtins := {|
  Number := λ v, match v with
                 | VStr (c :: s) => decimal 0 (c :: s)
                 | VNum n => n
                 | _ => NaN
                 end;
|}.

Definition empty_world : world :=
  {| docs := ∅; now := 1000; nextId := 256; sent := [] |}.

(** [{ title: "Dune", author: "Herbert" }] as stored under identifier 256,
    and a collection that holds it. *)
Definition dune_id : text := txt "000000000000000000000100".

Definition dune : object :=
  [(txt "title", VStr (txt "Dune")); (txt "author", VStr (txt "Herbert"));
   (txt "status", VStr (txt "to-read")); (txt "notes", VStr []);
   (txt "tags", VArr []); (_id, VOid 256);
   (createdAt, VDate 1000); (updatedAt, VDate 1000);
   (__v, VNum (of_Z 0))].

Definition dune_world : world :=
  {| docs := {[ 256 := dune ]}; now := 2000; nextId := 257; sent := [] |}.

Definition request_for (id : text) (q : object) (b : value) : request :=
  {| params_id := id; query := q; body := b |}.

(** [POST /api/books] with [{ title: "  Dune ", author: "Herbert" }] *)
Definition post_dune : request :=
  request_for []
    [] (VObj [(txt "title", VStr (txt "  Dune "));
              (txt "author", VStr (txt "Herbert"))]).

(** The same body with fields a client has no business sending. *)
Definition post_dune_extra : request :=
  request_for []
    [] (VObj [(txt "_id", VStr (txt "00000000000000000000ffff"));
              (txt "title", VStr (txt "  Dune "));
              (txt "createdAt", VStr (txt "1999-01-01"));
              (txt "author", VStr (txt "Herbert"));
              (txt "id", VNum (of_Z 7))]).

(** [POST /api/books] with [{ title: "   ", author: "Herbert" }] *)
Definition post_blank_title : request :=
  request_for []
    [] (VObj [(txt "title", VStr (txt "   "));
              (txt "author", VStr (txt "Herbert"))]).

(** [POST /api/books] with [{ author: "Herbert" }] *)
Definition post_no_title : request :=
  request_for [] [] (VObj [(txt "author", VStr (txt "Herbert"))]).

(** [GET /api/books/abc] *)
Definition get_abc : request := request_for (txt "abc") [] VUndef.

(** [GET /api/books/000000000000000000000100] *)
Definition get_dune : request := request_for dune_id [] VUndef.

(** [PATCH /api/books/000000000000000000000100] with [{ rating: 7 }] *)
Definition patch_rating_7 : request :=
  request_for dune_id [] (VObj [(txt "rating", VNum (of_Z 7))]).


(** [GET /api/books?q=dune] and [GET /api/books?page=abc&limit=0] *)
Definition list_q_dune : request :=
  request_for [] [(txt "q", VStr (txt "dune"))] VUndef.
Definition list_bad_paging : request :=
  request_for []
    [(txt "page", VStr (txt "abc")); (txt "limit", VStr (txt "0"))] VUndef.

End Sample.

(** ** Vocabulary of the statements *)

Module Spec.
Import JS Eff Mongoose Express Controller.

(** The answer of the three by-id handlers when nothing matches. *)
Definition not_found : response :=
  {| code := 404; json := error_body "Libro no encontrado" |}.

(** The object [createBook] hands to [Book.create]. *)
Definition candidate (title author status rating notes tags : value) : object :=
  [(txt "title", title); (txt "author", author); (txt "status", status);
   (txt "rating", rating); (txt "notes", notes); (txt "tags", tags)].

(** Every stored record carries the key it is stored under as its [_id]. *)
Definition consistent (w : world) : Prop :=
  ∀ (i : N) (d : object), docs w !! i = Some d → id_of d = Some i.

(** "A malformed identifier is answered 404", as a proposition. *)
Definition malformed_id_is_404 : Prop :=
  ∀ (req : request) (w : world),
    castObjectId (params_id req) = None →
    code (App.serve getBook req w).1 = 404.

End Spec.

(** ** [src/routes/index.js] and the middleware chain of [server.js] *)

Module Routes.
Import JS Eff Mongoose Express Controller.

(** The methods a client of the API sends. ([HEAD] and [OPTIONS], which the
    framework and [cors()] answer on their own, are left out.) *)
Inductive method := GET | POST | PUT | PATCH | DELETE.

(** The path of a request, as the three patterns of the router classify
    it; the matching of the URL text against a pattern is the
    framework's. *)
Inductive path :=
  | ApiHealth
  | ApiBooks
  | ApiBooksId (id : text)
  | Elsewhere.

(** [router.get("/api/health", (_req, res) => res.json({ ok: true }))] *)
Definition health : handler := λ _, res_json (VObj [(txt "ok", VBool true)]).

(** [req.params.id] for a path. *)
Definition params_of (p : path) : text :=
  match p with
  | ApiBooksId id => id
  | _ => []
  end.

Section WithEngine.
Context `{Engine} `{Builtins}.

(** The six routes, in the order they are registered. *)
Definition router (m : method) (p : path) : option handler :=
  match m, p with
  | GET, ApiHealth => Some health
  | POST, ApiBooks => Some createBook
  | GET, ApiBooks => Some listBooks
  | GET, ApiBooksId _ => Some getBook
  | PATCH, ApiBooksId _ => Some updateBook
  | DELETE, ApiBooksId _ => Some removeBook
  | _, _ => None
  end.

(** [app.use(router); app.use(notFound); app.use(onError)]: the matching
    route answers, with [onError] behind it; a request no route matches
    falls through to [notFound]. *)
Definition app (m : method) (p : path) (q : object) (b : value) (w : world)
  : response * world :=
  match router m p with
  | Some h =>
      App.serve h {| params_id := params_of p; query := q; body := b |} w
  | None => (Middleware.notFound, w)
  end.

End WithEngine.
End Routes.

(** ** More sample requests *)

Module Scenario.
Import JS Eff Mongoose Express.

(** [POST /api/books] with every optional field supplied *)
Definition post_full : request :=
  Sample.request_for [] []
    (VObj [(txt "title", VStr (txt " Neuromancer"));
           (txt "author", VStr (txt "Gibson "));
           (txt "status", VStr (txt "reading"));
           (txt "rating", VNum (of_Z 4));
           (txt "notes", VStr (txt "cyberpunk"));
           (txt "tags", VArr [VStr (txt "sf"); VStr (txt "1984")])]).

(** [POST /api/books] with [{ title: 42, author: "Herbert" }] *)
Definition post_numeric_title : request :=
  Sample.request_for [] []
    (VObj [(txt "title", VNum (of_Z 42));
           (txt "author", VStr (txt "Herbert"))]).

(** [POST /api/books] with a rating of 9 *)
Definition post_rating_9 : request :=
  Sample.request_for [] []
    (VObj [(txt "title", VStr (txt "Dune"));
           (txt "author", VStr (txt "Herbert"));
           (txt "rating", VNum (of_Z 9))]).

(** [PATCH] of the stored book with [{ status: "reading" }],
    [{ status: "lost" }] and [{ title: "  Dune Messiah " }] *)
Definition patch_status (s : string) : request :=
  Sample.request_for Sample.dune_id [] (VObj [(txt "status", VStr (txt s))]).

Definition patch_title : request :=
  Sample.request_for Sample.dune_id []
    (VObj [(txt "title", VStr (txt "  Dune Messiah "))]).

(** The same [PATCH] addressed to an identifier nothing is stored under,
    and to one that is not well formed *)
Definition patch_absent : request :=
  Sample.request_for (txt "0000000000000000000000ff") []
    (VObj [(txt "status", VStr (txt "reading"))]).

Definition patch_malformed : request :=
  Sample.request_for (txt "abc") []
    (VObj [(txt "status", VStr (txt "reading"))]).

(** [DELETE /api/books/0000000000000000000000ff] *)
Definition delete_absent : request :=
  Sample.request_for (txt "0000000000000000000000ff") [] VUndef.

(** [GET /api/books?page=3&limit=20] *)
Definition list_page_3 : request :=
  Sample.request_for []
    [(txt "page", VStr (txt "3")); (txt "limit", VStr (txt "20"))] VUndef.

End Scenario.

(** ** An engine that runs update pipelines

    [updateBook] forwards [req.body] to the store layer as it is. A body
    that is an array is an aggregation-pipeline update: the library passes
    its stages on without casting them against the schema (it appends a
    stage that refreshes [updatedAt]), and the server runs them on the
    matching document, refusing as always to change [_id]. This engine
    runs the [$set] stage (and its alias [$addFields]) and nothing else. *)

Module Pipeline.
Import JS Eff Mongoose Express Controller.







End Pipeline.

(** * Properties *)

(** ** Strings *)

Module JSFacts.
Import JS.

Lemma trimStart_idem (s : text) : trimStart (trimStart s) = trimStart s.
Proof.
  induction s as [|c s IH]; simpl; [done|].
  destruct (is_space c) eqn:Hc; [done|]. simpl. by rewrite Hc.
Qed.

Lemma trimStart_snoc (s : text) (c : N) :
  is_space c = false → trimStart (s ++ [c]) = trimStart s ++ [c].
Proof.
  intros Hc. induction s as [|x s IH]; simpl.
  - by rewrite Hc.
  - by destruct (is_space x).
Qed.

Lemma trimEnd_cons (c : N) (s : text) :
  is_space c = false → trimEnd (c :: s) = c :: trimEnd s.
Proof.
  intros Hc. unfold trimEnd. simpl.
  rewrite trimStart_snoc by done. by rewrite rev_unit.
Qed.

Lemma trimEnd_idem (s : text) : trimEnd (trimEnd s) = trimEnd s.
Proof. unfold trimEnd. by rewrite rev_involutive, trimStart_idem. Qed.

(** The shape of a trimmed string: empty, or starting with a code unit that
    is not white space. *)
Lemma trim_shape (s : text) :
  trim s = [] ∨ ∃ c r, is_space c = false ∧ trimStart s = c :: r
                       ∧ trim s = c :: trimEnd r.
Proof.
  unfold trim. destruct (trimStart s) as [|c r] eqn:Hs; [by left|].
  right. exists c, r.
  assert (is_space c = false) as Hc.
  { clear -Hs. induction s as [|x s IH]; simpl in Hs; [done|].
    destruct (is_space x) eqn:Hx; [auto|]. by simplify_eq. }
  split_and!; [done..|]. by apply trimEnd_cons.
Qed.

Lemma trim_idem (s : text) : trim (trim s) = trim s.
Proof.
  destruct (trim_shape s) as [->|(c & r & Hc & _ & ->)]; [done|].
  unfold trim at 1. simpl. rewrite Hc.
  rewrite trimEnd_cons by done. by rewrite trimEnd_idem.
Qed.

Lemma trim_nonempty (s : text) : trim s ≠ [] → s ≠ [].
Proof. intros Hs ->. by apply Hs. Qed.

(** Properties of objects. *)

Lemma lookup_prop_assign_eq (k : text) (v : value) (o : object) :
  lookup_prop k (assign_prop k v o) = v.
Proof.
  induction o as [|[k' v'] o IH]; simpl.
  - by rewrite bool_decide_eq_true_2.
  - case_bool_decide; simpl; case_bool_decide; done.
Qed.

Lemma lookup_prop_assign_ne (k k' : text) (v : value) (o : object) :
  k ≠ k' → lookup_prop k (assign_prop k' v o) = lookup_prop k o.
Proof.
  intros Hne. induction o as [|[k'' v''] o IH]; simpl.
  - by rewrite bool_decide_eq_false_2.
  - destruct (bool_decide (k' = k'')) eqn:Hk; simpl.
    + apply bool_decide_eq_true in Hk as <-.
      by rewrite !bool_decide_eq_false_2.
    + by rewrite IH.
Qed.

Lemma lookup_prop_delete_ne (k k' : text) (o : object) :
  k ≠ k' → lookup_prop k (delete_prop k' o) = lookup_prop k o.
Proof.
  intros Hne. induction o as [|[k'' v''] o IH]; simpl; [done|].
  destruct (bool_decide (k' = k'')) eqn:Hk; simpl.
  - apply bool_decide_eq_true in Hk as <-.
    by rewrite bool_decide_eq_false_2.
  - by rewrite IH.
Qed.


End JSFacts.

(** ** The list operation *)

Module ListFacts.
Import JS Eff Mongoose Express Controller.

Section WithEngine.
Context `{Engine} `{Builtins}.

(** No binding of [listBooks] is called [filter]. *)
Lemma filter_unbound (q status tag : value) (p l sp sl : num) :
  resolve "filter" (listBooks_scope q status tag p l sp sl) = None.
Proof. reflexivity. Qed.

Lemma assign_filter_throws (k : text) (v q status tag : value)
    (p l sp sl : num) (w : world) :
  assign_member "filter" k v (listBooks_scope q status tag p l sp sl) w
  = (inr (ReferenceError (txt "filter")), w).
Proof. reflexivity. Qed.

Lemma reference_filter_throws (q status tag : value) (p l sp sl : num)
    (w : world) :
  reference "filter" (listBooks_scope q status tag p l sp sl) w
  = (inr (ReferenceError (txt "filter")), w).
Proof. reflexivity. Qed.

(** The first read of [filter] ends the handler, whichever branch gets
    there first. *)
Lemma listBooks_throws (req : request) (w : world) :
  listBooks req w = (inr (ReferenceError (txt "filter")), w).
Proof.
  unfold listBooks, bind.
  destruct (truthy (lookup_prop (txt "q") (query req))).
  { by rewrite assign_filter_throws. }
  unfold ret at 1.
  destruct (truthy (lookup_prop (txt "status") (query req))).
  { by rewrite assign_filter_throws. }
  unfold ret at 1.
  destruct (truthy (lookup_prop (txt "tag") (query req))).
  { by rewrite assign_filter_throws. }
  unfold ret at 1.
  by rewrite reference_filter_throws.
Qed.

Lemma serve_listBooks (req : request) (w : world) :
  App.serve listBooks req w
  = ({| code := 500;
        json := VObj [(txt "error", VStr (txt "filter is not defined"))] |},
     w).
Proof. unfold App.serve. by rewrite listBooks_throws. Qed.

(** C2. Whatever the query parameters and the collection, [listBooks]
    reads the undeclared variable [filter] and throws a [ReferenceError]
    before any command is sent to the store: the world, and with it the list
    of commands sent, is left as it was, no response is produced by the
    handler, and what the client receives is the answer of the error
    middleware, never the 200 of the success path. *)
Theorem listBooks_always_throws (req : request) (w : world) :
  listBooks req w = (inr (ReferenceError (txt "filter")), w)
  ∧ (∀ r w', listBooks req w ≠ (inl r, w'))
  ∧ code (App.serve listBooks req w).1 ≠ 200
  ∧ sent (App.serve listBooks req w).2 = sent w.
Proof.
  split_and!.
  - apply listBooks_throws.
  - intros r w' Heq. rewrite listBooks_throws in Heq. discriminate.
  - rewrite serve_listBooks. simpl. discriminate.
  - by rewrite serve_listBooks.
Qed.

(** C1. [GET /api/books?q=dune] on a collection that holds "Dune": the
    list operation should answer 200 with [{total, page, limit, items}];
    the handler throws on [filter] and the client receives the 500 of the
    error middleware, the collection never being queried. *)
Theorem list_q_dune_is_an_error :
  App.serve listBooks Sample.list_q_dune Sample.dune_world
  = ({| code := 500;
        json := VObj [(txt "error", VStr (txt "filter is not defined"))] |},
     Sample.dune_world).
Proof. apply serve_listBooks. Qed.

(** The guard of lines 57 and 58, taken on its own: an absent, non-finite
    or non-positive [page] becomes 1, and likewise [limit] becomes 50. *)
Lemma safePage_fallback (req : request) :
  truthy (lookup_prop (txt "page") (query req)) = false
  ∨ isFinite (page req) = false
  ∨ gt (page req) (of_Z 0) = false →
  safePage req = of_Z 1.
Proof.
  unfold safePage. intros [Habsent|[Hinf|Hneg]].
  - unfold page. rewrite Habsent. reflexivity.
  - by rewrite Hinf.
  - rewrite Hneg. by rewrite andb_false_r.
Qed.

Lemma safeLimit_fallback (req : request) :
  truthy (lookup_prop (txt "limit") (query req)) = false
  ∨ isFinite (limit req) = false
  ∨ gt (limit req) (of_Z 0) = false →
  safeLimit req = of_Z 50.
Proof.
  unfold safeLimit. intros [Habsent|[Hinf|Hneg]].
  - unfold limit. rewrite Habsent. reflexivity.
  - by rewrite Hinf.
  - rewrite Hneg. by rewrite andb_false_r.
Qed.

End WithEngine.

(** C6. [GET /api/books?page=abc&limit=0]: the handler does compute the
    substitutes 1 and 50, but the response that should echo them is never
    sent: the request ends in the 500 of the error middleware. *)
Theorem list_bad_paging_is_an_error `{Engine} :
  @safePage Sample.decimalNumber Sample.list_bad_paging = of_Z 1
  ∧ @safeLimit Sample.decimalNumber Sample.list_bad_paging = of_Z 50
  ∧ App.serve (@listBooks _ Sample.decimalNumber) Sample.list_bad_paging
      Sample.dune_world
    = ({| code := 500;
          json := VObj [(txt "error", VStr (txt "filter is not defined"))] |},
       Sample.dune_world).
Proof. split_and!; [reflexivity..|apply serve_listBooks]. Qed.

End ListFacts.

(** ** Get by id and delete *)

Module ByIdFacts.
Import JS Eff Mongoose Express Controller Spec.

Lemma onError_code (e : exn) : code (Middleware.onError e) = 500.
Proof. reflexivity. Qed.

(** Identifiers survive the trip through their hexadecimal form. *)
Lemma hex_digit_char (d : N) : d < 16 → hex_digit (hex_char d) = Some d.
Proof.
  intros Hd. unfold hex_char, hex_digit.
  destruct (N.ltb_spec d 10) as [Hlt|Hge].
  - replace ((48 <=? 48 + d) && (48 + d <=? 57)) with true.
    + f_equal. lia.
    + symmetry. apply andb_true_iff. split; apply N.leb_le; lia.
  - replace ((48 <=? 87 + d) && (87 + d <=? 57)) with false.
    + replace ((97 <=? 87 + d) && (87 + d <=? 102)) with true.
      * f_equal. lia.
      * symmetry. apply andb_true_iff. split; apply N.leb_le; lia.
    + symmetry. apply andb_false_iff. right. apply N.leb_gt. lia.
Qed.

Lemma length_hex_digits (n : nat) (i : N) (acc : text) :
  length (hex_digits n i acc) = (n + length acc)%nat.
Proof.
  revert i acc. induction n as [|n IH]; intros i acc; simpl; [done|].
  rewrite IH. simpl. lia.
Qed.

Lemma hex_value_digits (n : nat) (i acc : N) (rest : text) :
  hex_value acc (hex_digits n i rest)
  = hex_value (acc * 16 ^ N.of_nat n + i mod 16 ^ N.of_nat n) rest.
Proof.
  revert i acc rest. induction n as [|n IH]; intros i acc rest.
  - simpl. rewrite N.mod_1_r. f_equal. lia.
  - cbn [hex_digits]. rewrite IH. cbn [hex_value].
    rewrite hex_digit_char by (apply N.mod_lt; lia).
    f_equal. rewrite Nat2N.inj_succ, N.pow_succ_r'.
    rewrite (N.Div0.mod_mul_r i 16). lia.
Qed.

Lemma castObjectId_toHexString (i : N) :
  i < 2 ^ 96 → castObjectId (toHexString i) = Some i.
Proof.
  intros Hi. unfold castObjectId, toHexString.
  rewrite bool_decide_eq_true_2 by (by rewrite length_hex_digits).
  rewrite hex_value_digits. simpl hex_value. f_equal.
  change (16 ^ N.of_nat 24) with (2 ^ 96). rewrite N.mod_small by done. lia.
Qed.

(** What [getBook] does, by cases on the identifier and the collection. *)
Lemma getBook_run (req : request) (w : world) :
  getBook req w =
  match castObjectId (params_id req) with
  | None => (inr (CastError _id), w)
  | Some i =>
      (inl match docs w !! i with
           | None => not_found
           | Some d => {| code := 200; json := VObj d |}
           end,
       World (docs w) (now w) (nextId w) (FindOne i :: sent w))
  end.
Proof.
  unfold getBook, Book.findById, findById, castFilterId, bind.
  destruct (castObjectId (params_id req)) as [i|]; simpl; [|done].
  by destruct (docs w !! i).
Qed.

Lemma removeBook_run (req : request) (w : world) :
  removeBook req w =
  match castObjectId (params_id req) with
  | None => (inr (CastError _id), w)
  | Some i =>
      (inl match docs w !! i with
           | None => not_found
           | Some _ => {| code := 200; json := VObj [(txt "ok", VBool true)] |}
           end,
       World (delete i (docs w)) (now w) (nextId w)
         (FindOneAndDelete i :: sent w))
  end.
Proof.
  unfold removeBook, Book.findByIdAndDelete, findByIdAndDelete, castFilterId,
    bind.
  destruct (castObjectId (params_id req)) as [i|]; simpl; [|done].
  by destruct (docs w !! i).
Qed.

(** C3, as stated, fails: [GET /api/books/abc] is answered with 500, not
    404. The identifier [abc] is not well formed, the cast of the filter
    throws, and the error reaches [onError] without a status. *)
Lemma get_abc_is_500 :
  castObjectId (params_id Sample.get_abc) = None
  ∧ getBook Sample.get_abc Sample.empty_world
    = (inr (CastError _id), Sample.empty_world)
  ∧ code (App.serve getBook Sample.get_abc Sample.empty_world).1 = 500
  ∧ ¬ malformed_id_is_404.
Proof.
  split_and!; [reflexivity..|].
  intros Hclaim.
  specialize (Hclaim Sample.get_abc Sample.empty_world eq_refl).
  vm_compute in Hclaim. discriminate.
Qed.

(** C3, amended. A well-formed identifier that matches no stored record is
    answered 404 ("Libro no encontrado") and the collection is unchanged; a
    stored record is returned with 200; an identifier that is not well
    formed makes the handler throw a [CastError] before anything is sent,
    and the client receives 500. *)
Theorem getBook_by_cases (req : request) (w : world) :
  match castObjectId (params_id req) with
  | Some i =>
      match docs w !! i with
      | None => (App.serve getBook req w).1 = not_found
      | Some d => (App.serve getBook req w).1 = {| code := 200; json := VObj d |}
      end
      ∧ docs (App.serve getBook req w).2 = docs w
  | None =>
      getBook req w = (inr (CastError _id), w)
      ∧ code (App.serve getBook req w).1 = 500
      ∧ (App.serve getBook req w).2 = w
  end.
Proof.
  unfold App.serve. rewrite getBook_run.
  destruct (castObjectId (params_id req)) as [i|]; simpl; [|done].
  by destruct (docs w !! i).
Qed.

(** C9. Deleting a stored record answers 200 with exactly [{ok: true}]
    (nothing of the deleted record is returned), and any later get-by-id
    with that identifier answers 404. *)
Theorem delete_then_get (req req' : request) (w : world) (i : N) (d : object) :
  castObjectId (params_id req) = Some i →
  docs w !! i = Some d →
  castObjectId (params_id req') = Some i →
  (App.serve removeBook req w).1
    = {| code := 200; json := VObj [(txt "ok", VBool true)] |}
  ∧ docs (App.serve removeBook req w).2 !! i = None
  ∧ (App.serve getBook req' (App.serve removeBook req w).2).1 = not_found.
Proof.
  intros Hid Hd Hid'.
  unfold App.serve. rewrite removeBook_run, Hid, Hd. simpl.
  rewrite getBook_run, Hid'. simpl.
  rewrite !lookup_delete_eq. by split_and!.
Qed.

Lemma delete_then_get_witness :
  (App.serve removeBook Sample.get_dune Sample.dune_world).1
    = {| code := 200; json := VObj [(txt "ok", VBool true)] |}
  ∧ docs (App.serve removeBook Sample.get_dune Sample.dune_world).2 !! 256
    = None
  ∧ (App.serve getBook Sample.get_dune
       (App.serve removeBook Sample.get_dune Sample.dune_world).2).1
    = not_found.
Proof.
  apply (delete_then_get Sample.get_dune Sample.get_dune Sample.dune_world
           256 Sample.dune); reflexivity.
Defined.

End ByIdFacts.

(** ** Create *)

Module CreateFacts.
Import JS Eff Mongoose Express Controller Spec JSFacts.

Lemma destructure_ok (v : value) (w : world) :
  v ≠ VUndef → v ≠ VNull → destructure v w = (inl v, w).
Proof. by destruct v. Qed.

Section WithEngine.
Context `{Engine}.

(** A required, trimmed string path (as [title] and [author] are) given a
    string: rejected when nothing is left after trimming. *)
Lemma hydrate_path_required (obj : object) (name s : text) :
  lookup_prop name obj = VStr s →
  hydrate_path obj
    (name, {| type := String_; required := true; trim := true; enum := None;
              default := VUndef; min := None; max := None;
              immutable := false |})
  = if bool_decide (JS.trim s = []) then inr name
    else inl (Some (name, VStr (JS.trim s))).
Proof.
  intros Hs. unfold hydrate_path. simpl. rewrite Hs. simpl.
  unfold validate. simpl. destruct (bool_decide (JS.trim s = [])); reflexivity.
Qed.

(** A path nothing is supplied for takes its default. *)
Lemma hydrate_path_default (obj : object) (name : text)
    (o : SchemaTypeOptions) :
  lookup_prop name obj = VUndef →
  hydrate_path obj (name, o)
  = if validate o (default o)
    then inl (match default o with
              | VUndef => None
              | _ => Some (name, default o)
              end)
    else inr name.
Proof. intros Hs. unfold hydrate_path. simpl. rewrite Hs. reflexivity. Qed.

(** A path that fails is reported. *)
Lemma hydrate_reports (ps : list (text * SchemaTypeOptions)) (obj : object)
    (p : text * SchemaTypeOptions) :
  p ∈ ps → hydrate_path obj p = inr p.1 → p.1 ∈ (hydrate ps obj).2.
Proof.
  intros Hin Hbad. induction ps as [|p' ps IH]; [by apply elem_of_nil in Hin|].
  simpl. destruct (hydrate ps obj) as [fields bad] eqn:Hrest.
  apply elem_of_cons in Hin as [<-|Hin].
  - rewrite Hbad. simpl. apply elem_of_cons. by left.
  - specialize (IH Hin). simpl in IH.
    destruct (hydrate_path obj p') as [[f|]|n]; simpl; [done..|].
    apply elem_of_cons. by right.
Qed.

(** [Model.create] on an object that validates, when the generated
    identifier is free. *)
Lemma create_valid (s : Schema) (obj fields : object) (w : world) :
  hydrate (paths s) obj = (fields, []) →
  docs w !! nextId w = None →
  create s obj w =
  let doc := fields ++ [(_id, VOid (nextId w))]
             ++ (if timestamps s
                 then [(createdAt, VDate (now w)); (updatedAt, VDate (now w))]
                 else [])
             ++ [(__v, VNum (of_Z 0))] in
  (inl doc,
   World (<[nextId w := doc]> (docs w)) (now w) (nextId w + 1)
     (InsertOne doc :: sent w)).
Proof.
  intros Hh Hfree. unfold create, newObjectId, bind. rewrite Hh.
  unfold get, insertOne, bind, send, get. simpl. by rewrite Hfree.
Qed.

(** [Model.create] on an object that does not validate: the error names
    the failing paths; an identifier was drawn, nothing was sent. *)
Lemma create_invalid (s : Schema) (obj fields : object) (n : text)
    (bad : list text) (w : world) :
  hydrate (paths s) obj = (fields, n :: bad) →
  create s obj w
  = (inr (ValidationError (n :: bad)),
     World (docs w) (now w) (nextId w + 1) (sent w)).
Proof. intros Hh. unfold create, newObjectId, bind. by rewrite Hh. Qed.

(** [createBook] past its guard, for string [title] and [author]. *)
Lemma createBook_strings (req : request) (w : world) (t a : text) :
  body req ≠ VUndef → body req ≠ VNull →
  prop (body req) "title" = VStr t → prop (body req) "author" = VStr a →
  t ≠ [] → a ≠ [] →
  createBook req w
  = bind (Book.create
            (candidate (VStr (JS.trim t)) (VStr (JS.trim a))
               (prop (body req) "status") (prop (body req) "rating")
               (prop (body req) "notes") (prop (body req) "tags")))
         (λ book, res_status_json 201 (VObj book)) w.
Proof.
  intros Hu Hn Ht Ha Hte Hae. unfold createBook.
  unfold bind at 1. rewrite destructure_ok by done.
  rewrite Ht, Ha. simpl.
  by rewrite !bool_decide_eq_false_2 by done.
Qed.

(** The schema fills in the defaults of the optional paths. *)
Lemma hydrate_defaults (t a : text) :
  JS.trim t ≠ [] → JS.trim a ≠ [] →
  hydrate (paths Book.bookSchema)
    (candidate (VStr (JS.trim t)) (VStr (JS.trim a)) VUndef VUndef VUndef VUndef)
  = ([(txt "title", VStr (JS.trim t)); (txt "author", VStr (JS.trim a));
      (txt "status", VStr (txt "to-read")); (txt "notes", VStr []);
      (txt "tags", VArr [])], []).
Proof.
  intros Ht Ha. unfold Book.bookSchema. cbn [hydrate paths].
  rewrite (hydrate_path_default _ (txt "status")) by reflexivity.
  rewrite (hydrate_path_default _ (txt "rating")) by reflexivity.
  rewrite (hydrate_path_default _ (txt "notes")) by reflexivity.
  rewrite (hydrate_path_default _ (txt "tags")) by reflexivity.
  rewrite (hydrate_path_required _ (txt "title") (JS.trim t)) by reflexivity.
  rewrite (hydrate_path_required _ (txt "author") (JS.trim a)) by reflexivity.
  rewrite !trim_idem. rewrite !bool_decide_eq_false_2 by done.
  reflexivity.
Qed.

(** A blank [title] or [author] fails the [required] validator, whatever
    the other fields are. *)
Lemma hydrate_blank (t a : text) (status rating notes tags : value) :
  JS.trim t = [] ∨ JS.trim a = [] →
  (hydrate (paths Book.bookSchema)
     (candidate (VStr (JS.trim t)) (VStr (JS.trim a))
        status rating notes tags)).2 ≠ [].
Proof.
  intros Hblank Hnil.
  set (obj := candidate _ _ _ _ _ _) in *.
  destruct Hblank as [Ht|Ha].
  - pose proof (hydrate_reports (paths Book.bookSchema) obj
                  (txt "title", _) (list_elem_of_here _ _)) as Hin.
    rewrite Hnil in Hin. eapply elem_of_nil, Hin.
    rewrite (hydrate_path_required obj (txt "title") (JS.trim t)) by reflexivity.
    by rewrite trim_idem, bool_decide_eq_true_2.
  - pose proof (hydrate_reports (paths Book.bookSchema) obj
                  (txt "author", _)
                  (list_elem_of_further _ _ _ (list_elem_of_here _ _))) as Hin.
    rewrite Hnil in Hin. eapply elem_of_nil, Hin.
    rewrite (hydrate_path_required obj (txt "author") (JS.trim a)) by reflexivity.
    by rewrite trim_idem, bool_decide_eq_true_2.
Qed.

(** C7. A create request with non-blank string [title] and [author] and no
    optional field is answered 201 with the stored record: trimmed title and
    author, status "to-read", empty notes, no tags; and a get-by-id with the
    identifier of that record returns the same record. The identifier drawn
    for the record is assumed not to be in use. *)
Theorem create_then_get (req req' : request) (w : world) (t a : text) :
  body req ≠ VUndef → body req ≠ VNull →
  prop (body req) "title" = VStr t →
  prop (body req) "author" = VStr a →
  JS.trim t ≠ [] → JS.trim a ≠ [] →
  prop (body req) "status" = VUndef →
  prop (body req) "rating" = VUndef →
  prop (body req) "notes" = VUndef →
  prop (body req) "tags" = VUndef →
  docs w !! nextId w = None →
  castObjectId (params_id req') = Some (nextId w) →
  ∃ book : object,
    (App.serve createBook req w).1 = {| code := 201; json := VObj book |}
    ∧ lookup_prop (txt "title") book = VStr (JS.trim t)
    ∧ lookup_prop (txt "author") book = VStr (JS.trim a)
    ∧ lookup_prop (txt "status") book = VStr (txt "to-read")
    ∧ lookup_prop (txt "notes") book = VStr []
    ∧ lookup_prop (txt "tags") book = VArr []
    ∧ lookup_prop (txt "rating") book = VUndef
    ∧ id_of book = Some (nextId w)
    ∧ docs (App.serve createBook req w).2 !! nextId w = Some book
    ∧ (App.serve getBook req' (App.serve createBook req w).2).1
      = {| code := 200; json := VObj book |}.
Proof.
  intros Hu Hn Ht Ha Htt Hta Hs Hr Hno Htg Hfree Hid.
  unfold App.serve.
  rewrite (createBook_strings req w t a)
    by eauto using trim_nonempty.
  rewrite Hs, Hr, Hno, Htg. unfold bind, Book.create.
  rewrite (create_valid _ _ _ _ (hydrate_defaults t a Htt Hta) Hfree).
  cbn [timestamps Book.bookSchema res_status_json ret fst snd].
  eexists. split; [reflexivity|].
  split_and!; try reflexivity.
  - cbn [docs]. by rewrite lookup_insert_eq.
  - rewrite ByIdFacts.getBook_run, Hid. cbn [docs].
    by rewrite lookup_insert_eq.
Qed.

(** C5, amended. With a body to read, a create request whose [title] or
    [author] is missing or empty (or otherwise falsy) is answered 400 and
    changes nothing. When both are non-empty strings but one of them is
    blank after trimming, the controller lets the request through, the
    schema's [required] validator fails, and the [ValidationError] reaches
    the error middleware: the client receives 500; an identifier has been
    drawn, but no record is stored and nothing is sent to the server. *)
Theorem create_missing_or_blank (req : request) (w : world) :
  body req ≠ VUndef → body req ≠ VNull →
  (truthy (prop (body req) "title") = false
   ∨ truthy (prop (body req) "author") = false →
   App.serve createBook req w
   = ({| code := 400; json := error_body "title y author son requeridos" |},
      w))
  ∧ (∀ t a : text,
       prop (body req) "title" = VStr t →
       prop (body req) "author" = VStr a →
       t ≠ [] → a ≠ [] →
       JS.trim t = [] ∨ JS.trim a = [] →
       (∃ bad, createBook req w
               = (inr (ValidationError bad),
                  World (docs w) (now w) (nextId w + 1) (sent w)))
       ∧ code (App.serve createBook req w).1 = 500
       ∧ docs (App.serve createBook req w).2 = docs w
       ∧ sent (App.serve createBook req w).2 = sent w).
Proof.
  intros Hu Hn. split.
  - intros Hfalsy. unfold App.serve, createBook.
    unfold bind at 1. rewrite destructure_ok by done.
    destruct Hfalsy as [-> | ->]; [done|].
    by rewrite orb_true_r.
  - intros t a Ht Ha Hte Hae Hblank.
    assert (∃ bad, createBook req w
                   = (inr (ValidationError bad),
                      World (docs w) (now w) (nextId w + 1) (sent w)))
      as [bad Hrun].
    { rewrite (createBook_strings req w t a) by done.
      unfold bind, Book.create.
      pose proof (hydrate_blank t a (prop (body req) "status")
                    (prop (body req) "rating") (prop (body req) "notes")
                    (prop (body req) "tags") Hblank) as Hbad.
      destruct (hydrate _ _) as [fields [|n bad]] eqn:Hh; [done|].
      exists (n :: bad). by rewrite (create_invalid _ _ _ _ _ _ Hh). }
    split; [by exists bad|].
    unfold App.serve. rewrite Hrun. by split_and!.
Qed.

(** C10. Two create requests whose bodies agree on [title], [author],
    [status], [rating], [notes] and [tags] have the same outcome on the same
    world: the same response and the same world afterwards, whatever else
    the bodies contain. *)
Theorem create_reads_six_fields (req1 req2 : request) (w : world) :
  body req1 ≠ VUndef → body req1 ≠ VNull →
  body req2 ≠ VUndef → body req2 ≠ VNull →
  prop (body req1) "title" = prop (body req2) "title" →
  prop (body req1) "author" = prop (body req2) "author" →
  prop (body req1) "status" = prop (body req2) "status" →
  prop (body req1) "rating" = prop (body req2) "rating" →
  prop (body req1) "notes" = prop (body req2) "notes" →
  prop (body req1) "tags" = prop (body req2) "tags" →
  App.serve createBook req1 w = App.serve createBook req2 w.
Proof.
  intros Hu1 Hn1 Hu2 Hn2 Ht Ha Hs Hr Hno Htg.
  unfold App.serve, createBook.
  unfold bind at 1 5. rewrite !destructure_ok by done.
  by rewrite Ht, Ha, Hs, Hr, Hno, Htg.
Qed.

End WithEngine.

(** C5, as stated, fails: [POST /api/books] with
    [{ title: "   ", author: "Herbert" }] is answered with 500, not 400. *)
Lemma blank_title_is_500 :
  App.serve (@createBook Sample.strictEngine) Sample.post_blank_title
    Sample.empty_world
  = ({| code := 500;
        json := VObj [(txt "error",
                       VStr (txt "Book validation failed: title"))] |},
     {| docs := ∅; now := 1000; nextId := 257; sent := [] |}).
Proof. reflexivity. Qed.

Lemma create_missing_or_blank_witness :
  App.serve (@createBook Sample.strictEngine) Sample.post_no_title
    Sample.empty_world
  = ({| code := 400; json := error_body "title y author son requeridos" |},
     Sample.empty_world)
  ∧ code (App.serve (@createBook Sample.strictEngine)
            Sample.post_blank_title Sample.empty_world).1 = 500.
Proof.
  split.
  - apply (@create_missing_or_blank Sample.strictEngine Sample.post_no_title
             Sample.empty_world); [discriminate..|].
    left. reflexivity.
  - apply (@create_missing_or_blank Sample.strictEngine
             Sample.post_blank_title Sample.empty_world)
      with (t := txt "   ") (a := txt "Herbert");
      [discriminate..|reflexivity|reflexivity|discriminate|discriminate|].
    left. reflexivity.
Defined.

Lemma create_then_get_witness :
  ∃ book : object,
    (App.serve (@createBook Sample.strictEngine) Sample.post_dune
       Sample.empty_world).1 = {| code := 201; json := VObj book |}
    ∧ lookup_prop (txt "title") book = VStr (JS.trim (txt "  Dune "))
    ∧ lookup_prop (txt "author") book = VStr (JS.trim (txt "Herbert"))
    ∧ lookup_prop (txt "status") book = VStr (txt "to-read")
    ∧ lookup_prop (txt "notes") book = VStr []
    ∧ lookup_prop (txt "tags") book = VArr []
    ∧ lookup_prop (txt "rating") book = VUndef
    ∧ id_of book = Some 256
    ∧ docs (App.serve (@createBook Sample.strictEngine) Sample.post_dune
              Sample.empty_world).2 !! 256 = Some book
    ∧ (App.serve getBook Sample.get_dune
         (App.serve (@createBook Sample.strictEngine) Sample.post_dune
            Sample.empty_world).2).1
      = {| code := 200; json := VObj book |}.
Proof.
  apply (@create_then_get Sample.strictEngine Sample.post_dune Sample.get_dune
           Sample.empty_world (txt "  Dune ") (txt "Herbert"));
    first [reflexivity | discriminate].
Defined.

Lemma create_reads_six_fields_witness :
  App.serve (@createBook Sample.strictEngine) Sample.post_dune
    Sample.empty_world
  = App.serve (@createBook Sample.strictEngine) Sample.post_dune_extra
      Sample.empty_world.
Proof.
  apply (@create_reads_six_fields Sample.strictEngine Sample.post_dune
           Sample.post_dune_extra Sample.empty_world);
    first [reflexivity | discriminate].
Defined.

End CreateFacts.

(** ** Partial update *)

Module UpdateFacts.
Import JS Eff Mongoose Express Controller Spec JSFacts.



Lemma schema_path_elem (name : text) (ps : list (text * SchemaTypeOptions))
    (o : SchemaTypeOptions) :
  schema_path name ps = Some o → (name, o) ∈ ps.
Proof.
  induction ps as [|[n o'] ps IH]; simpl; [done|].
  case_bool_decide as Hn.
  - intros [= ->]. subst. apply list_elem_of_here.
  - intros Hs. apply list_elem_of_further. auto.
Qed.

Section WithEngine.
Context `{Engine}.


(** A path of the schema the update supplies is cast, set and stored under
    its name. *)
Lemma castUpdate_sets (ps : list (text * SchemaTypeOptions))
    (u set : object) (name : text) (o : SchemaTypeOptions) (v : value) :
  castUpdate ps u = inl set →
  schema_path name ps = Some o →
  immutable o = false →
  lookup_prop name u = v → v ≠ VUndef →
  ∃ v', cast (type o) v = Some v' ∧ lookup_prop name set = apply_setters o v'.
Proof.
  intros Hcast Hpath Himm Hv Hdef. revert set Hcast Hpath.
  induction ps as [|[n o'] ps IH]; intros set; simpl; [done|].
  case_bool_decide as Hname.
  - subst n. intros Hcast [= ->].
    rewrite Hv, Himm in Hcast.
    destruct v; [done|..];
      (destruct (cast (type o) _) as [v'|] eqn:Hc; [|done]);
      (destruct (castUpdate ps u) as [set'|]; [|done]);
      injection Hcast as <-; exists v'; simpl;
      by rewrite bool_decide_eq_true_2.
  - intros Hcast Hpath.
    assert (∀ set', castUpdate ps u = inl set' →
              ∃ v', cast (type o) v = Some v'
                    ∧ lookup_prop name set' = apply_setters o v') as IH'
      by (intros; by apply IH).
    destruct (lookup_prop n u) eqn:Hn; [by apply IH'|..];
      (destruct (immutable o'); [by apply IH'|]);
      (destruct (cast (type o') _) as [w'|]; [|done]);
      (destruct (castUpdate ps u) as [set'|]; [|done]);
      injection Hcast as <-; simpl;
      rewrite bool_decide_eq_false_2 by done; by apply IH'.
Qed.

(** A set path that fails a validator is reported. *)
Lemma invalid_paths_elem (ps : list (text * SchemaTypeOptions))
    (set : object) (name : text) (o : SchemaTypeOptions) :
  (name, o) ∈ ps →
  lookup_prop name set ≠ VUndef →
  validate o (lookup_prop name set) = false →
  name ∈ invalid_paths ps set.
Proof.
  intros Hin Hdef Hval. induction ps as [|[n o'] ps IH];
    [by apply elem_of_nil in Hin|].
  apply elem_of_cons in Hin as [[= <- <-]|Hin]; simpl.
  - destruct (lookup_prop name set); [done|..];
      rewrite Hval; apply list_elem_of_here.
  - specialize (IH Hin).
    destruct (lookup_prop n set); [done|..];
      (destruct (validate o' _); [done | by apply list_elem_of_further]).
Qed.

(** [findOneAndUpdate] on a stored document. *)
Lemma findOneAndUpdate_run (i : N) (set d : object) (returnNew : bool)
    (w : world) :
  docs w !! i = Some d →
  findOneAndUpdate i set returnNew w =
  let d' := foldl (λ acc kv, assign_prop kv.1 kv.2 acc) d set in
  if bool_decide (id_of d' = id_of d)
  then (inl (Some (if returnNew then d' else d)),
        World (<[i := d']> (docs w)) (now w) (nextId w)
          (FindOneAndUpdate i set :: sent w))
  else (inr (MongoServerError 66),
        World (docs w) (now w) (nextId w) (FindOneAndUpdate i set :: sent w)).
Proof.
  intros Hd. unfold findOneAndUpdate, bind, send, get. simpl. rewrite Hd.
  simpl. by case_bool_decide.
Qed.

(** [findByIdAndUpdate] with a plain mapping: cast, validate, then send. *)
Lemma findByIdAndUpdate_plain (s : Schema) (id : text) (update : value)
    (opts : QueryOptions) (w : world) (i : N) (u : object) :
  castObjectId id = Some i →
  plain_update update = Some u →
  findByIdAndUpdate s id update opts w =
  match castUpdate (all_paths s) (applyTimestampsToUpdate s u) with
  | inr e => (inr e, w)
  | inl set =>
      match (if runValidators opts then invalid_paths (all_paths s) set
             else []) with
      | [] =>
          findOneAndUpdate i
            (set ++ if timestamps s then [(updatedAt, VDate (now w))] else [])
            (new opts) w
      | bad => (inr (ValidationError bad), w)
      end
  end.
Proof.
  intros Hid Hu. unfold findByIdAndUpdate, castFilterId, bind.
  rewrite Hid, Hu. simpl. unfold lift.
  destruct (castUpdate _ _) as [set|e]; [|done].
  destruct (runValidators opts); [|done].
  unfold runUpdateValidators. by destruct (invalid_paths _ set).
Qed.


Lemma rating_kept (u : object) :
  lookup_prop (txt "rating") (applyTimestampsToUpdate Book.bookSchema u)
  = lookup_prop (txt "rating") u.
Proof.
  unfold applyTimestampsToUpdate. simpl. by rewrite !lookup_prop_delete_ne.
Qed.

(** The validators of [rating] reject a number outside [0, 5]. *)
Lemma rating_out_of_range (r : num) :
  gt r (of_Z 5) = true ∨ gt (of_Z 0) r = true →
  cast Number_ (VNum r) = Some (VNum r)
  ∧ validate
      {| type := Number_; required := false; trim := false; enum := None;
         default := VUndef; min := Some (of_Z 0); max := Some (of_Z 5);
         immutable := false |} (VNum r) = false.
Proof.
  unfold validate, le. simpl.
  destruct r as [|[]|q]; simpl; intros [Hr|Hr]; try done.
  - apply negb_true_iff in Hr. rewrite Hr. by rewrite andb_false_r.
  - apply negb_true_iff in Hr. by rewrite Hr.
Qed.


(** C4, amended. A partial update given as a plain mapping whose [rating]
    is a number outside [0, 5] fails for every stored record: the handler
    throws the [ValidationError] of the schema (naming [rating]), or the
    [CastError] of another field of the mapping; nothing is sent to the
    server and the stored record is unchanged. The error carries no status:
    the client receives 500. *)
Theorem update_bad_rating (req : request) (w : world) (i : N) (d u : object)
    (r : num) :
  castObjectId (params_id req) = Some i →
  docs w !! i = Some d →
  plain_update (body req) = Some u →
  lookup_prop (txt "rating") u = VNum r →
  gt r (of_Z 5) = true ∨ gt (of_Z 0) r = true →
  (∃ e, updateBook req w = (inr e, w)
        ∧ ((∃ p, e = CastError p)
           ∨ ∃ bad, e = ValidationError bad ∧ txt "rating" ∈ bad))
  ∧ code (App.serve updateBook req w).1 = 500
  ∧ (App.serve updateBook req w).2 = w
  ∧ docs (App.serve updateBook req w).2 !! i = Some d.
Proof.
  intros Hid Hd Hu Hr Hout.
  destruct (rating_out_of_range r Hout) as [Hcastr Hval].
  assert (∃ e, updateBook req w = (inr e, w)
               ∧ ((∃ p, e = CastError p)
                  ∨ ∃ bad, e = ValidationError bad ∧ txt "rating" ∈ bad))
    as (e & Hrun & He).
  { unfold updateBook, bind, Book.findByIdAndUpdate.
    rewrite (findByIdAndUpdate_plain _ _ _ _ _ i u Hid Hu).
    destruct (castUpdate _ _) as [set|e] eqn:Hcast.
    2: { exists e. split; [done|]. left.
         clear -Hcast. revert e Hcast.
         generalize (applyTimestampsToUpdate Book.bookSchema u) as u'.
         intros u'.
         induction (all_paths Book.bookSchema) as [|[n o] ps IH]; simpl;
           [done|].
         intros e.
         destruct (lookup_prop n u'); [by apply IH|..];
           (destruct (immutable o); [by apply IH|]);
           (destruct (cast (type o) _); [|intros [= <-]; by eexists]);
           (destruct (castUpdate ps u') as [set'|e']; [done|]);
           intros [= <-]; by apply IH. }
    cbn [runValidators].
    destruct (castUpdate_sets _ _ _ (txt "rating") _ (VNum r) Hcast eq_refl
                eq_refl) as (v' & Hv' & Hset).
    { by rewrite rating_kept. }
    { done. }
    change (cast Number_ (VNum r) = Some v') in Hv'.
    rewrite Hcastr in Hv'. injection Hv' as <-. simpl in Hset.
    pose proof (invalid_paths_elem (all_paths Book.bookSchema) set
                  (txt "rating") _
                  (schema_path_elem (txt "rating")
                     (all_paths Book.bookSchema) _ eq_refl)) as Hin.
    rewrite Hset in Hin. specialize (Hin ltac:(done) Hval).
    destruct (invalid_paths _ set) as [|n bad];
      [by apply elem_of_nil in Hin|].
    exists (ValidationError (n :: bad)). split; [done|].
    right. by exists (n :: bad). }
  split; [by exists e|].
  unfold App.serve. rewrite Hrun. by split_and!.
Qed.

End WithEngine.

(** C4, as stated, fails: [PATCH] of a stored book with [{ rating: 7 }] is
    answered with 500, not 400 (the record is indeed unchanged). *)
Lemma patch_rating_7_is_500 :
  App.serve (@updateBook Sample.strictEngine) Sample.patch_rating_7
    Sample.dune_world
  = ({| code := 500;
        json := VObj [(txt "error",
                       VStr (txt "Book validation failed: rating"))] |},
     Sample.dune_world).
Proof. reflexivity. Qed.

Lemma update_bad_rating_witness :
  (∃ e, @updateBook Sample.strictEngine Sample.patch_rating_7 Sample.dune_world
        = (inr e, Sample.dune_world)
        ∧ ((∃ p, e = CastError p)
           ∨ ∃ bad, e = ValidationError bad ∧ txt "rating" ∈ bad))
  ∧ code (App.serve (@updateBook Sample.strictEngine) Sample.patch_rating_7
            Sample.dune_world).1 = 500
  ∧ (App.serve (@updateBook Sample.strictEngine) Sample.patch_rating_7
       Sample.dune_world).2 = Sample.dune_world
  ∧ docs (App.serve (@updateBook Sample.strictEngine) Sample.patch_rating_7
            Sample.dune_world).2 !! 256 = Some Sample.dune.
Proof.
  apply (@update_bad_rating Sample.strictEngine Sample.patch_rating_7
           Sample.dune_world 256 Sample.dune
           [(txt "rating", VNum (of_Z 7))] (of_Z 7));
    [reflexivity..|].
  left. reflexivity.
Defined.


End UpdateFacts.

(** ** The collection stays consistent *)

Module Invariant.
Import JS Eff Mongoose Express Controller Spec JSFacts.

Lemma lookup_prop_app_r (k : text) (o1 o2 : object) :
  k ∉ o1.*1 → lookup_prop k (o1 ++ o2) = lookup_prop k o2.
Proof.
  induction o1 as [|[k' v'] o1 IH]; simpl; [done|].
  intros [Hne Hk]%not_elem_of_cons.
  rewrite bool_decide_eq_false_2 by done. auto.
Qed.

Lemma consistent_empty : consistent Sample.empty_world.
Proof. intros i d Hd. simpl in Hd. by rewrite lookup_empty in Hd. Qed.

Lemma consistent_same_docs (w w' : world) :
  docs w' = docs w → consistent w → consistent w'.
Proof. intros Heq Hw i d. rewrite Heq. apply Hw. Qed.

Lemma consistent_insert (w w' : world) (i : N) (d : object) :
  docs w' = <[i := d]> (docs w) → id_of d = Some i →
  consistent w → consistent w'.
Proof.
  intros Heq Hd Hw j d'. rewrite Heq.
  destruct (decide (i = j)) as [->|Hne].
  - rewrite lookup_insert_eq. by intros [= <-].
  - rewrite lookup_insert_ne by done. apply Hw.
Qed.

Lemma consistent_delete (w w' : world) (i : N) :
  docs w' = delete i (docs w) → consistent w → consistent w'.
Proof.
  intros Heq Hw j d'. rewrite Heq.
  destruct (decide (i = j)) as [->|Hne].
  - by rewrite lookup_delete_eq.
  - rewrite lookup_delete_ne by done. apply Hw.
Qed.

Section WithEngine.
Context `{Engine}.

(** The fields of a new document are named after paths of the schema. *)
Lemma hydrate_keys (ps : list (text * SchemaTypeOptions)) (obj : object)
    (k : text) :
  k ∈ (hydrate ps obj).1.*1 → k ∈ ps.*1.
Proof.
  induction ps as [|[n o] ps IH]; [done|].
  cbn [hydrate]. destruct (hydrate ps obj) as [fields bad].
  rewrite fmap_cons. cbn [fst snd] in *.
  destruct (hydrate_path obj (n, o)) as [[[n' v]|]|n'] eqn:Hp;
    cbn [fst snd];
    [|intros Hk; apply elem_of_cons; right; by apply IH..].
  assert (n' = n) as ->.
  { unfold hydrate_path in Hp. cbn [fst snd] in Hp.
    destruct (match lookup_prop n obj with
              | VUndef => Some (default o)
              | _ => apply_setters o <$> cast (type o) (lookup_prop n obj)
              end) as [v0|]; [|done].
    destruct (validate o v0); [|done]. destruct v0; by simplify_eq. }
  rewrite fmap_cons. cbn [fst]. intros [->|Hk]%elem_of_cons.
  - apply list_elem_of_here.
  - apply list_elem_of_further. by apply IH.
Qed.

(** [Model.create] keeps the collection consistent when the schema leaves
    [_id] to the library. *)
Lemma create_consistent (s : Schema) (obj : object) (w : world) :
  _id ∉ (paths s).*1 →
  consistent w → consistent (create s obj w).2.
Proof.
  intros Hid Hw. unfold create, newObjectId, bind.
  destruct (hydrate (paths s) obj) as [fields bad] eqn:Hh.
  destruct bad as [|n bad]; [|done].
  unfold get, insertOne, send, bind, get, set_docs. cbn [docs nextId now sent].
  destruct (docs w !! nextId w) eqn:Hfree; cbn [snd]; [done|].
  eapply (consistent_insert w); [reflexivity| |done].
  unfold id_of. rewrite lookup_prop_app_r.
  { cbn [app lookup_prop]. by rewrite bool_decide_eq_true_2. }
  intros Hk. apply Hid, (hydrate_keys _ obj). by rewrite Hh.
Qed.

Lemma destructure_world (v : value) (w : world) : (destructure v w).2 = w.
Proof. by destruct v. Qed.

Lemma call_trim_world (v : value) (w : world) : (call_trim v w).2 = w.
Proof. by destruct v. Qed.

Lemma bookSchema_leaves_id : _id ∉ (paths Book.bookSchema).*1.
Proof.
  cbn. intros Hk.
  repeat (apply elem_of_cons in Hk as [Hk|Hk]; [discriminate|]).
  by apply elem_of_nil in Hk.
Qed.

Lemma createBook_consistent (req : request) (w : world) :
  consistent w → consistent (App.serve createBook req w).2.
Proof.
  intros Hw.
  assert (consistent (createBook req w).2) as Hrun.
  { unfold createBook, bind.
    pose proof (destructure_world (body req) w) as Hb.
    destruct (destructure (body req) w) as [[b|e] w0];
      cbn [snd] in Hb; subst w0; [|done].
    destruct (negb _ || negb _); [done|].
    pose proof (call_trim_world (prop b "title") w) as Ht.
    destruct (call_trim (prop b "title") w) as [[t|e] w1];
      cbn [snd] in Ht; subst w1; [|done].
    pose proof (call_trim_world (prop b "author") w) as Ha.
    destruct (call_trim (prop b "author") w) as [[a|e] w2];
      cbn [snd] in Ha; subst w2; [|done].
    unfold Book.create.
    match goal with
    | |- context [create _ ?obj w] =>
        pose proof (create_consistent Book.bookSchema obj w
                      bookSchema_leaves_id Hw) as Hc;
        by destruct (create Book.bookSchema obj w) as [[book|e] w3]
    end. }
  unfold App.serve. by destruct (createBook req w) as [[r|e] w'].
Qed.

Lemma removeBook_consistent (req : request) (w : world) :
  consistent w → consistent (App.serve removeBook req w).2.
Proof.
  intros Hw. unfold App.serve. rewrite ByIdFacts.removeBook_run.
  destruct (castObjectId (params_id req)) as [i|]; [|done].
  by eapply (consistent_delete w).
Qed.

Lemma getBook_consistent (req : request) (w : world) :
  consistent w → consistent (App.serve getBook req w).2.
Proof.
  intros Hw. unfold App.serve. rewrite ByIdFacts.getBook_run.
  by destruct (castObjectId (params_id req)).
Qed.

(** A partial update given as a plain mapping keeps it consistent too: the
    server refuses to change an [_id]. *)
Lemma updateBook_consistent (req : request) (w : world) (u : object) :
  plain_update (body req) = Some u →
  consistent w → consistent (App.serve updateBook req w).2.
Proof.
  intros Hu Hw.
  assert (consistent (updateBook req w).2) as Hrun.
  { unfold updateBook, bind, Book.findByIdAndUpdate.
    destruct (castObjectId (params_id req)) as [i|] eqn:Hid.
    2: { unfold findByIdAndUpdate, castFilterId, bind. by rewrite Hid. }
    rewrite (UpdateFacts.findByIdAndUpdate_plain _ _ _ _ _ i u Hid Hu).
    destruct (castUpdate _ _) as [set|e]; [|done].
    cbn [runValidators]. destruct (invalid_paths _ set); [|done].
    destruct (docs w !! i) as [d|] eqn:Hd.
    2: { unfold findOneAndUpdate, bind, send, get. cbn. by rewrite Hd. }
    rewrite (UpdateFacts.findOneAndUpdate_run _ _ d _ _ Hd). cbn zeta.
    case_bool_decide as Hsame; cbn; [|done].
    eapply (consistent_insert w); [reflexivity| |done].
    transitivity (id_of d); [exact Hsame | by apply Hw]. }
  unfold App.serve. by destruct (updateBook req w) as [[r|e] w'].
Qed.

End WithEngine.
End Invariant.

(** ** More on create *)

Module CreateMore.
Import JS Eff Mongoose Express Controller Spec JSFacts.

Section WithEngine.
Context `{Engine}.

(** The five ways [createBook] can end. *)
Lemma createBook_outcome (req : request) (w : world) :
  createBook req w
  = (inl {| code := 400; json := error_body "title y author son requeridos" |},
     w)
  ∨ (∃ what, createBook req w = (inr (TypeError what), w))
  ∨ (∃ bad, createBook req w
            = (inr (ValidationError bad),
               World (docs w) (now w) (nextId w + 1) (sent w)))
  ∨ (∃ doc, is_Some (docs w !! nextId w)
            ∧ createBook req w
              = (inr (MongoServerError 11000),
                 World (docs w) (now w) (nextId w + 1)
                   (InsertOne doc :: sent w)))
  ∨ (∃ fields,
       let doc := fields ++ [(_id, VOid (nextId w));
                             (createdAt, VDate (now w));
                             (updatedAt, VDate (now w));
                             (__v, VNum (of_Z 0))] in
       (∀ k, k ∈ fields.*1 → k ∈ (paths Book.bookSchema).*1)
       ∧ docs w !! nextId w = None
       ∧ createBook req w
         = (inl {| code := 201; json := VObj doc |},
            World (<[nextId w := doc]> (docs w)) (now w) (nextId w + 1)
              (InsertOne doc :: sent w))).
Proof.
  unfold createBook, bind.
  destruct (body req) eqn:Hbody; cbn [destructure throw ret];
    try (right; left; by eexists);
    (destruct (negb _ || negb _); [by left|]);
    (destruct (prop _ "title") as [| | | |tstr| | | |] eqn:Ht;
       cbn [call_trim throw ret]; try (right; left; by eexists));
    (destruct (prop _ "author") as [| | | |astr| | | |] eqn:Ha;
       cbn [call_trim throw ret]; try (right; left; by eexists));
    unfold Book.create;
    match goal with |- context [create _ ?o w] => set (obj := o) end;
    unfold create, newObjectId, insertOne, send, set_docs, get, bind,
      throw, ret;
    destruct (hydrate (paths Book.bookSchema) obj) as [fields bad] eqn:Hh;
    (destruct bad as [|n bad]; [|do 2 right; left; by eexists]);
    cbn [docs now nextId sent timestamps Book.bookSchema];
    (destruct (docs w !! nextId w) as [d0|] eqn:Hfree;
       [do 3 right; left; eexists; split; [done|reflexivity]|]);
    do 4 right; exists fields; cbn zeta; split_and!; try done;
    intros k Hk; apply (Invariant.hydrate_keys _ obj); by rewrite Hh.
Qed.

(** The keys Mongoose adds are not paths of the book schema. *)
Lemma stamp_lookup (fields : object) (k : text) (stamp : object) :
  (∀ k', k' ∈ fields.*1 → k' ∈ (paths Book.bookSchema).*1) →
  k ∉ (paths Book.bookSchema).*1 →
  lookup_prop k (fields ++ stamp) = lookup_prop k stamp.
Proof.
  intros Hkeys Hk. apply Invariant.lookup_prop_app_r. intros Hin. auto.
Qed.

Lemma not_a_book_path (k : text) :
  k ∈ [_id; createdAt; updatedAt; __v] → k ∉ (paths Book.bookSchema).*1.
Proof.
  intros Hk Hin. cbn in Hin.
  repeat (apply elem_of_cons in Hk as [->|Hk]);
    try (repeat (apply elem_of_cons in Hin as [Hin|Hin]; [discriminate|]);
         by apply elem_of_nil in Hin).
  by apply elem_of_nil in Hk.
Qed.

(** X1. A [title] or [author] that is truthy but not a string (a number,
    [true], an array, an object) passes the guard and then has no [trim]
    method: the handler throws a [TypeError], the client receives 500, and
    the world is left exactly as it was. *)
Theorem create_needs_strings (req : request) (w : world) :
  body req ≠ VUndef → body req ≠ VNull →
  truthy (prop (body req) "title") = true →
  truthy (prop (body req) "author") = true →
  (∀ s, prop (body req) "title" ≠ VStr s)
  ∨ (∀ s, prop (body req) "author" ≠ VStr s) →
  (∃ what, createBook req w = (inr (TypeError what), w))
  ∧ code (App.serve createBook req w).1 = 500
  ∧ (App.serve createBook req w).2 = w.
Proof.
  intros Hu Hn Ht Ha Hns.
  assert (∃ what, createBook req w = (inr (TypeError what), w))
    as [what Hrun].
  { unfold createBook. unfold bind at 1.
    rewrite CreateFacts.destructure_ok by done.
    rewrite Ht, Ha. cbn [negb orb]. unfold bind.
    destruct (prop (body req) "title") as [| | | |tstr| | | |] eqn:Etitle;
      try (by eexists); cbn [call_trim ret].
    - destruct Hns as [Hns|Hns]; [by destruct (Hns tstr)|].
      destruct (prop (body req) "author") as [| | | |astr| | | |];
        try (by eexists). by destruct (Hns astr). }
  split; [by exists what|].
  unfold App.serve. by rewrite Hrun.
Qed.

(** X2. Whenever [createBook] answers 201, the body is the new record:
    it carries the identifier drawn for it, [createdAt] and [updatedAt]
    equal to the current time and version 0; it is stored under that
    identifier, which was free before, and the identifier supply has moved
    on. *)
Theorem create_201_record (req : request) (w : world) :
  code (App.serve createBook req w).1 = 201 →
  ∃ book : object,
    json (App.serve createBook req w).1 = VObj book
    ∧ lookup_prop _id book = VOid (nextId w)
    ∧ lookup_prop createdAt book = VDate (now w)
    ∧ lookup_prop updatedAt book = VDate (now w)
    ∧ lookup_prop __v book = VNum (of_Z 0)
    ∧ docs w !! nextId w = None
    ∧ docs (App.serve createBook req w).2 !! nextId w = Some book
    ∧ nextId (App.serve createBook req w).2 = nextId w + 1.
Proof.
  unfold App.serve.
  destruct (createBook_outcome req w)
    as [Hr|[[what Hr]|[[bad Hr]|[(doc & _ & Hr)|(fields & Hkeys & Hfree & Hr)]]]];
    rewrite Hr; cbn [fst snd]; try discriminate.
  intros _. eexists. split; [reflexivity|].
  split_and!; try done.
  - rewrite (stamp_lookup fields _id _ Hkeys);
      [reflexivity | apply not_a_book_path; set_solver].
  - rewrite (stamp_lookup fields createdAt _ Hkeys);
      [reflexivity | apply not_a_book_path; set_solver].
  - rewrite (stamp_lookup fields updatedAt _ Hkeys);
      [reflexivity | apply not_a_book_path; set_solver].
  - rewrite (stamp_lookup fields __v _ Hkeys);
      [reflexivity | apply not_a_book_path; set_solver].
  - cbn [docs]. by rewrite lookup_insert_eq.
Qed.

(** X3. [createBook] never changes or removes a record that is already
    stored: whatever the request, every identifier other than the one drawn
    for the new record maps to what it mapped to before, and a record that
    was stored is still stored unchanged. *)
Theorem create_keeps_existing (req : request) (w : world) (i : N) :
  (i ≠ nextId w →
   docs (App.serve createBook req w).2 !! i = docs w !! i)
  ∧ (∀ d, docs w !! i = Some d →
          docs (App.serve createBook req w).2 !! i = Some d).
Proof.
  unfold App.serve.
  destruct (createBook_outcome req w)
    as [Hr|[[what Hr]|[[bad Hr]|[(doc & _ & Hr)|(fields & Hkeys & Hfree & Hr)]]]];
    rewrite Hr; cbn [fst snd docs]; try done.
  split.
  - intros Hne. by rewrite lookup_insert_ne.
  - intros d Hd. rewrite lookup_insert_ne; [done|].
    intros <-. by rewrite Hfree in Hd.
Qed.

(** X4. Two creates in a row that both answer 201 give their records
    different identifiers, and both records are stored afterwards. *)
Theorem create_twice (req1 req2 : request) (w : world) :
  code (App.serve createBook req1 w).1 = 201 →
  code (App.serve createBook req2 (App.serve createBook req1 w).2).1 = 201 →
  ∃ (b1 b2 : object) (i1 i2 : N),
    json (App.serve createBook req1 w).1 = VObj b1
    ∧ json (App.serve createBook req2 (App.serve createBook req1 w).2).1
      = VObj b2
    ∧ lookup_prop _id b1 = VOid i1 ∧ lookup_prop _id b2 = VOid i2
    ∧ i1 ≠ i2
    ∧ docs (App.serve createBook req2 (App.serve createBook req1 w).2).2 !! i1
      = Some b1
    ∧ docs (App.serve createBook req2 (App.serve createBook req1 w).2).2 !! i2
      = Some b2.
Proof.
  unfold App.serve.
  destruct (createBook_outcome req1 w)
    as [Hr|[[what Hr]|[[bad Hr]|[(doc & _ & Hr)|(f1 & Hk1 & Hfree1 & Hr)]]]];
    rewrite Hr; cbn [fst snd]; try discriminate.
  intros _.
  match goal with |- context [createBook req2 ?x] => set (w1 := x) end.
  destruct (createBook_outcome req2 w1)
    as [Hr2|[[what Hr2]|[[bad Hr2]|[(doc & _ & Hr2)|(f2 & Hk2 & Hfree2 & Hr2)]]]];
    rewrite Hr2; cbn [fst snd]; try discriminate.
  intros _. do 2 eexists. exists (nextId w), (nextId w + 1).
  split; [reflexivity|]. split; [reflexivity|].
  split_and!.
  - rewrite (stamp_lookup f1 _id _ Hk1);
      [reflexivity | apply not_a_book_path; set_solver].
  - rewrite (stamp_lookup f2 _id _ Hk2);
      [reflexivity | apply not_a_book_path; set_solver].
  - lia.
  - subst w1. cbn [docs nextId]. rewrite lookup_insert_ne by lia.
    by rewrite lookup_insert_eq.
  - subst w1. cbn [docs nextId]. by rewrite lookup_insert_eq.
Qed.

(** A supplied value that casts and validates is stored as cast and set. *)
Lemma hydrate_path_supplied (obj : object) (name : text)
    (o : SchemaTypeOptions) (v v' : value) :
  lookup_prop name obj = v → v ≠ VUndef →
  cast (type o) v = Some v' →
  validate o (apply_setters o v') = true →
  apply_setters o v' ≠ VUndef →
  hydrate_path obj (name, o) = inl (Some (name, apply_setters o v')).
Proof.
  intros Hv Hdef Hcast Hval Hset. unfold hydrate_path. cbn [fst snd].
  rewrite Hv.
  destruct v; [done|..]; rewrite Hcast; cbn [fmap option_fmap option_map];
    rewrite Hval; by destruct (apply_setters o v').
Qed.

Lemma mapM_cast_strings (ts : list text) :
  mapM cast_element (VStr <$> ts) = Some (VStr <$> ts).
Proof.
  induction ts as [|t ts IH]; [done|].
  cbn [fmap list_fmap mapM]. cbn [fmap list_fmap] in IH. by rewrite IH.
Qed.

(** The [enum] of [status], as the schema lists it. *)
Lemma status_enum_ok (s : text) :
  s ∈ [txt "to-read"; txt "reading"; txt "finished"] →
  validate
    {| type := String_; required := false; trim := false;
       enum := Some [txt "to-read"; txt "reading"; txt "finished"];
       default := VStr (txt "to-read");
       min := None; max := None; immutable := false |} (VStr s) = true.
Proof. intros Hs. unfold validate. cbn. by rewrite bool_decide_eq_true_2. Qed.

Lemma status_enum_bad (s : text) :
  s ∉ [txt "to-read"; txt "reading"; txt "finished"] →
  validate
    {| type := String_; required := false; trim := false;
       enum := Some [txt "to-read"; txt "reading"; txt "finished"];
       default := VStr (txt "to-read");
       min := None; max := None; immutable := false |} (VStr s) = false.
Proof. intros Hs. unfold validate. cbn. by rewrite bool_decide_eq_false_2. Qed.

Lemma rating_in_range (r : num) :
  ge r (of_Z 0) = true → le r (of_Z 5) = true →
  cast Number_ (VNum r) = Some (VNum r)
  ∧ validate
      {| type := Number_; required := false; trim := false; enum := None;
         default := VUndef; min := Some (of_Z 0); max := Some (of_Z 5);
         immutable := false |} (VNum r) = true.
Proof.
  intros Hlo Hhi. split; [by destruct r|].
  unfold validate. cbn [required enum min max]. by rewrite Hlo, Hhi.
Qed.

Lemma hydrate_supplied (t a s n : text) (r : num) (ts : list text) :
  JS.trim t ≠ [] → JS.trim a ≠ [] →
  s ∈ [txt "to-read"; txt "reading"; txt "finished"] →
  ge r (of_Z 0) = true → le r (of_Z 5) = true →
  hydrate (paths Book.bookSchema)
    (candidate (VStr (JS.trim t)) (VStr (JS.trim a)) (VStr s) (VNum r)
       (VStr n) (VArr (VStr <$> ts)))
  = ([(txt "title", VStr (JS.trim t)); (txt "author", VStr (JS.trim a));
      (txt "status", VStr s); (txt "rating", VNum r);
      (txt "notes", VStr n); (txt "tags", VArr (VStr <$> ts))], []).
Proof.
  intros Ht Ha Hs Hlo Hhi.
  destruct (rating_in_range r Hlo Hhi) as [Hcast Hval].
  unfold Book.bookSchema. cbn [hydrate paths].
  rewrite (CreateFacts.hydrate_path_required _ (txt "title") (JS.trim t))
    by reflexivity.
  rewrite (CreateFacts.hydrate_path_required _ (txt "author") (JS.trim a))
    by reflexivity.
  rewrite !trim_idem. rewrite !bool_decide_eq_false_2 by done.
  rewrite (hydrate_path_supplied _ (txt "status") _ (VStr s) (VStr s));
    [|reflexivity|done|reflexivity|by apply status_enum_ok|done].
  rewrite (hydrate_path_supplied _ (txt "rating") _ (VNum r) (VNum r));
    [|reflexivity|done|exact Hcast|exact Hval|done].
  rewrite (hydrate_path_supplied _ (txt "notes") _ (VStr n) (VStr n));
    [|reflexivity|done|reflexivity|reflexivity|done].
  rewrite (hydrate_path_supplied _ (txt "tags") _ (VArr (VStr <$> ts))
             (VArr (VStr <$> ts)));
    [|reflexivity|done| |reflexivity|done].
  - reflexivity.
  - cbn [cast type]. by rewrite mapM_cast_strings.
Qed.

(** X5. A create request with non-blank [title] and [author] that supplies
    a [status] of the enumeration, a numeric [rating] within [0, 5], string
    [notes] and [tags] as an array of strings is answered 201 with a record
    that holds exactly those values (title and author trimmed), provided the
    identifier drawn for it is free. *)
Theorem create_stores_supplied (req : request) (w : world) (t a s n : text)
    (r : num) (ts : list text) :
  body req ≠ VUndef → body req ≠ VNull →
  prop (body req) "title" = VStr t →
  prop (body req) "author" = VStr a →
  JS.trim t ≠ [] → JS.trim a ≠ [] →
  prop (body req) "status" = VStr s →
  s ∈ [txt "to-read"; txt "reading"; txt "finished"] →
  prop (body req) "rating" = VNum r →
  ge r (of_Z 0) = true → le r (of_Z 5) = true →
  prop (body req) "notes" = VStr n →
  prop (body req) "tags" = VArr (VStr <$> ts) →
  docs w !! nextId w = None →
  ∃ book : object,
    (App.serve createBook req w).1 = {| code := 201; json := VObj book |}
    ∧ lookup_prop (txt "title") book = VStr (JS.trim t)
    ∧ lookup_prop (txt "author") book = VStr (JS.trim a)
    ∧ lookup_prop (txt "status") book = VStr s
    ∧ lookup_prop (txt "rating") book = VNum r
    ∧ lookup_prop (txt "notes") book = VStr n
    ∧ lookup_prop (txt "tags") book = VArr (VStr <$> ts)
    ∧ docs (App.serve createBook req w).2 !! nextId w = Some book.
Proof.
  intros Hu Hnl Ht Ha Htt Hta Hs Hse Hr Hlo Hhi Hn Htg Hfree.
  unfold App.serve.
  rewrite (CreateFacts.createBook_strings req w t a)
    by eauto using trim_nonempty.
  rewrite Hs, Hr, Hn, Htg. unfold bind, Book.create.
  rewrite (CreateFacts.create_valid _ _ _ _
             (hydrate_supplied t a s n r ts Htt Hta Hse Hlo Hhi) Hfree).
  cbn [timestamps Book.bookSchema res_status_json ret fst snd].
  eexists. split; [reflexivity|].
  split_and!; try reflexivity.
  cbn [docs]. by rewrite lookup_insert_eq.
Qed.

(** X6. A create request with string [title] and [author] whose [rating]
    is a number outside [0, 5], or whose [status] is a string outside the
    enumeration, is rejected by the schema: the handler throws a
    [ValidationError], the client receives 500, and nothing is stored or
    sent (an identifier has been drawn). *)
Theorem create_rejects_invalid_optional (req : request) (w : world)
    (t a : text) :
  body req ≠ VUndef → body req ≠ VNull →
  prop (body req) "title" = VStr t →
  prop (body req) "author" = VStr a →
  t ≠ [] → a ≠ [] →
  (∃ r, prop (body req) "rating" = VNum r
        ∧ (gt r (of_Z 5) = true ∨ gt (of_Z 0) r = true))
  ∨ (∃ s, prop (body req) "status" = VStr s
          ∧ s ∉ [txt "to-read"; txt "reading"; txt "finished"]) →
  (∃ bad, createBook req w
          = (inr (ValidationError bad),
             World (docs w) (now w) (nextId w + 1) (sent w)))
  ∧ code (App.serve createBook req w).1 = 500
  ∧ docs (App.serve createBook req w).2 = docs w
  ∧ sent (App.serve createBook req w).2 = sent w.
Proof.
  intros Hu Hnl Ht Ha Hte Hae Hbad.
  assert (∃ bad, createBook req w
                 = (inr (ValidationError bad),
                    World (docs w) (now w) (nextId w + 1) (sent w)))
    as [bad Hrun].
  { rewrite (CreateFacts.createBook_strings req w t a) by done.
    unfold bind, Book.create.
    match goal with |- context [create _ ?o w] => set (obj := o) end.
    assert ((hydrate (paths Book.bookSchema) obj).2 ≠ []) as Hne.
    { intros Hnil. destruct Hbad as [(r & Hr & Hout)|(s & Hs & Hout)].
      - destruct (UpdateFacts.rating_out_of_range r Hout) as [Hcast Hval].
        pose proof (CreateFacts.hydrate_reports (paths Book.bookSchema) obj
                      (txt "rating", _)
                      ltac:(do 3 apply list_elem_of_further;
                            apply list_elem_of_here)) as Hin.
        rewrite Hnil in Hin. eapply elem_of_nil, Hin.
        unfold hydrate_path. cbn [fst snd].
        change (lookup_prop (txt "rating") obj)
          with (prop (body req) "rating").
        rewrite Hr. cbn [type]. rewrite Hcast.
        cbn [fmap option_fmap option_map apply_setters]. by rewrite Hval.
      - pose proof (CreateFacts.hydrate_reports (paths Book.bookSchema) obj
                      (txt "status", _)
                      ltac:(do 2 apply list_elem_of_further;
                            apply list_elem_of_here)) as Hin.
        rewrite Hnil in Hin. eapply elem_of_nil, Hin.
        unfold hydrate_path. cbn [fst snd].
        change (lookup_prop (txt "status") obj)
          with (prop (body req) "status").
        rewrite Hs. cbn [type cast fmap option_fmap option_map apply_setters
                           trim].
        by rewrite status_enum_bad. }
    destruct (hydrate _ obj) as [fields [|n bad]] eqn:Hh; [done|].
    exists (n :: bad). by rewrite (CreateFacts.create_invalid _ _ _ _ _ _ Hh). }
  split; [by exists bad|].
  unfold App.serve. rewrite Hrun. by split_and!.
Qed.

End WithEngine.

Lemma create_needs_strings_witness :
  (∃ what, @createBook Sample.strictEngine Scenario.post_numeric_title
             Sample.dune_world
           = (inr (TypeError what), Sample.dune_world))
  ∧ code (App.serve (@createBook Sample.strictEngine)
            Scenario.post_numeric_title Sample.dune_world).1 = 500
  ∧ (App.serve (@createBook Sample.strictEngine)
       Scenario.post_numeric_title Sample.dune_world).2 = Sample.dune_world.
Proof.
  apply (@create_needs_strings Sample.strictEngine
           Scenario.post_numeric_title Sample.dune_world);
    [discriminate | discriminate | reflexivity | reflexivity |].
  left. intros s. discriminate.
Defined.

Lemma create_201_record_witness :
  ∃ book : object,
    json (App.serve (@createBook Sample.strictEngine) Scenario.post_full
            Sample.dune_world).1 = VObj book
    ∧ lookup_prop _id book = VOid 257
    ∧ lookup_prop createdAt book = VDate 2000
    ∧ lookup_prop updatedAt book = VDate 2000
    ∧ lookup_prop __v book = VNum (of_Z 0)
    ∧ docs Sample.dune_world !! 257 = None
    ∧ docs (App.serve (@createBook Sample.strictEngine) Scenario.post_full
              Sample.dune_world).2 !! 257 = Some book
    ∧ nextId (App.serve (@createBook Sample.strictEngine) Scenario.post_full
                Sample.dune_world).2 = 257 + 1.
Proof.
  apply (@create_201_record Sample.strictEngine Scenario.post_full
           Sample.dune_world).
  reflexivity.
Defined.

Lemma create_keeps_existing_witness :
  docs (App.serve (@createBook Sample.strictEngine) Scenario.post_full
          Sample.dune_world).2 !! 256 = Some Sample.dune.
Proof.
  apply (@create_keeps_existing Sample.strictEngine Scenario.post_full
           Sample.dune_world 256).
  reflexivity.
Defined.

Lemma create_twice_witness :
  ∃ (b1 b2 : object) (i1 i2 : N),
    json (App.serve (@createBook Sample.strictEngine) Sample.post_dune
            Sample.empty_world).1 = VObj b1
    ∧ json (App.serve (@createBook Sample.strictEngine) Scenario.post_full
              (App.serve (@createBook Sample.strictEngine) Sample.post_dune
                 Sample.empty_world).2).1 = VObj b2
    ∧ lookup_prop _id b1 = VOid i1 ∧ lookup_prop _id b2 = VOid i2
    ∧ i1 ≠ i2
    ∧ docs (App.serve (@createBook Sample.strictEngine) Scenario.post_full
              (App.serve (@createBook Sample.strictEngine) Sample.post_dune
                 Sample.empty_world).2).2 !! i1 = Some b1
    ∧ docs (App.serve (@createBook Sample.strictEngine) Scenario.post_full
              (App.serve (@createBook Sample.strictEngine) Sample.post_dune
                 Sample.empty_world).2).2 !! i2 = Some b2.
Proof.
  apply (@create_twice Sample.strictEngine Sample.post_dune
           Scenario.post_full Sample.empty_world); reflexivity.
Defined.

Lemma create_stores_supplied_witness :
  ∃ book : object,
    (App.serve (@createBook Sample.strictEngine) Scenario.post_full
       Sample.dune_world).1 = {| code := 201; json := VObj book |}
    ∧ lookup_prop (txt "title") book = VStr (JS.trim (txt " Neuromancer"))
    ∧ lookup_prop (txt "author") book = VStr (JS.trim (txt "Gibson "))
    ∧ lookup_prop (txt "status") book = VStr (txt "reading")
    ∧ lookup_prop (txt "rating") book = VNum (of_Z 4)
    ∧ lookup_prop (txt "notes") book = VStr (txt "cyberpunk")
    ∧ lookup_prop (txt "tags") book = VArr (VStr <$> [txt "sf"; txt "1984"])
    ∧ docs (App.serve (@createBook Sample.strictEngine) Scenario.post_full
              Sample.dune_world).2 !! 257 = Some book.
Proof.
  apply (@create_stores_supplied Sample.strictEngine Scenario.post_full
           Sample.dune_world (txt " Neuromancer") (txt "Gibson ")
           (txt "reading") (txt "cyberpunk") (of_Z 4) [txt "sf"; txt "1984"]);
    try reflexivity; try discriminate.
  vm_compute. apply list_elem_of_further, list_elem_of_here.
Defined.

Lemma create_rejects_invalid_optional_witness :
  (∃ bad, @createBook Sample.strictEngine Scenario.post_rating_9
            Sample.dune_world
          = (inr (ValidationError bad),
             World (docs Sample.dune_world) (now Sample.dune_world)
               (nextId Sample.dune_world + 1) (sent Sample.dune_world)))
  ∧ code (App.serve (@createBook Sample.strictEngine) Scenario.post_rating_9
            Sample.dune_world).1 = 500
  ∧ docs (App.serve (@createBook Sample.strictEngine) Scenario.post_rating_9
            Sample.dune_world).2 = docs Sample.dune_world
  ∧ sent (App.serve (@createBook Sample.strictEngine) Scenario.post_rating_9
            Sample.dune_world).2 = sent Sample.dune_world.
Proof.
  apply (@create_rejects_invalid_optional Sample.strictEngine
           Scenario.post_rating_9 Sample.dune_world (txt "Dune")
           (txt "Herbert")); try reflexivity; try discriminate.
  left. exists (of_Z 9). split; [reflexivity|]. left. reflexivity.
Defined.

End CreateMore.

(** ** More on update and delete *)

Module UpdateMore.
Import JS Eff Mongoose Express Controller Spec JSFacts.

Section WithEngine.
Context `{Engine}.

(** Casting an update can only fail with a [CastError]. *)
Lemma castUpdate_error (ps : list (text * SchemaTypeOptions)) (u : object)
    (e : exn) :
  castUpdate ps u = inr e → ∃ p, e = CastError p.
Proof.
  revert e. induction ps as [|[n o] ps IH]; simpl; [done|]. intros e.
  destruct (lookup_prop n u); [by apply IH|..];
    (destruct (immutable o); [by apply IH|]);
    (destruct (cast (type o) _); [|intros [= <-]; by eexists]);
    (destruct (castUpdate ps u) as [set'|e']; [done|]);
    intros [= <-]; by apply IH.
Qed.

Lemma findOneAndUpdate_missing (i : N) (set : object) (returnNew : bool)
    (w : world) :
  docs w !! i = None →
  findOneAndUpdate i set returnNew w
  = (inl None,
     World (docs w) (now w) (nextId w) (FindOneAndUpdate i set :: sent w)).
Proof.
  intros Hd. unfold findOneAndUpdate, bind, send, get. cbn. by rewrite Hd.
Qed.

(** The ways [updateBook] can end on a plain mapping and a well-formed
    identifier. *)
Lemma updateBook_plain_outcome (req : request) (w : world) (i : N)
    (u : object) :
  castObjectId (params_id req) = Some i →
  plain_update (body req) = Some u →
  (∃ e, updateBook req w = (inr e, w)
        ∧ ((∃ p, e = CastError p) ∨ ∃ bad, e = ValidationError bad))
  ∨ (∃ set,
       castUpdate (all_paths Book.bookSchema)
         (applyTimestampsToUpdate Book.bookSchema u) = inl set
       ∧ invalid_paths (all_paths Book.bookSchema) set = []
       ∧ let set' := set ++ [(updatedAt, VDate (now w))] in
         let w1 := World (docs w) (now w) (nextId w)
                     (FindOneAndUpdate i set' :: sent w) in
         match docs w !! i with
         | None => updateBook req w = (inl not_found, w1)
         | Some d =>
             let d' := foldl (λ acc kv, assign_prop kv.1 kv.2 acc) d set' in
             if bool_decide (id_of d' = id_of d)
             then updateBook req w
                  = (inl {| code := 200; json := VObj d' |},
                     World (<[i := d']> (docs w)) (now w) (nextId w)
                       (FindOneAndUpdate i set' :: sent w))
             else updateBook req w = (inr (MongoServerError 66), w1)
         end).
Proof.
  intros Hid Hu. unfold updateBook, bind, Book.findByIdAndUpdate.
  rewrite (UpdateFacts.findByIdAndUpdate_plain _ _ _ _ _ i u Hid Hu).
  destruct (castUpdate _ _) as [set|e] eqn:Hcast.
  2: { left. exists e. split; [done|]. left. by eapply castUpdate_error. }
  cbn [runValidators].
  destruct (invalid_paths _ set) as [|n bad] eqn:Hval.
  2: { left. eexists. split; [done|]. right. by eexists. }
  right. exists set. split_and!; [done..|]. cbn zeta.
  cbn [timestamps Book.bookSchema new].
  destruct (docs w !! i) as [d|] eqn:Hd.
  - rewrite (UpdateFacts.findOneAndUpdate_run _ _ d _ _ Hd). cbn zeta.
    by case_bool_decide.
  - by rewrite (findOneAndUpdate_missing _ _ _ _ Hd).
Qed.

(** X7. [updateBook] and [removeBook] cast the identifier before anything
    else: with an identifier that is not well formed both throw a
    [CastError], whatever the body, the client receives 500, and the world
    is left exactly as it was. *)
Theorem malformed_id_mutations (req : request) (w : world) :
  castObjectId (params_id req) = None →
  updateBook req w = (inr (CastError _id), w)
  ∧ removeBook req w = (inr (CastError _id), w)
  ∧ code (App.serve updateBook req w).1 = 500
  ∧ code (App.serve removeBook req w).1 = 500
  ∧ (App.serve updateBook req w).2 = w
  ∧ (App.serve removeBook req w).2 = w.
Proof.
  intros Hid.
  assert (updateBook req w = (inr (CastError _id), w)) as Hup.
  { unfold updateBook, bind, Book.findByIdAndUpdate, findByIdAndUpdate,
      castFilterId, bind. by rewrite Hid. }
  assert (removeBook req w = (inr (CastError _id), w)) as Hrm.
  { by rewrite ByIdFacts.removeBook_run, Hid. }
  unfold App.serve. rewrite Hup, Hrm. by split_and!.
Qed.

(** X8. [updateBook] never creates a record: a plain mapping sent to a
    well-formed identifier nothing is stored under leaves the collection as
    it was, and is answered 404 ("Libro no encontrado") unless the mapping
    itself is rejected (500). *)
Theorem update_no_upsert (req : request) (w : world) (i : N) (u : object) :
  castObjectId (params_id req) = Some i →
  plain_update (body req) = Some u →
  docs w !! i = None →
  docs (App.serve updateBook req w).2 = docs w
  ∧ ((App.serve updateBook req w).1 = not_found
     ∨ code (App.serve updateBook req w).1 = 500).
Proof.
  intros Hid Hu Hd. unfold App.serve.
  destruct (updateBook_plain_outcome req w i u Hid Hu)
    as [(e & Hr & _)|(set & _ & _ & Hr)].
  - rewrite Hr. split; [done|by right].
  - cbn zeta in Hr. rewrite Hd in Hr. rewrite Hr. split; [done|by left].
Qed.

(** X9. A plain-mapping update touches no record but its target, and
    never removes a record: every identifier other than the one addressed
    maps to what it mapped to before, and what was stored under the
    addressed identifier is still stored (updated or not). *)
Theorem update_frame (req : request) (w : world) (u : object) (j : N) :
  plain_update (body req) = Some u →
  (castObjectId (params_id req) ≠ Some j →
   docs (App.serve updateBook req w).2 !! j = docs w !! j)
  ∧ (is_Some (docs w !! j) →
     is_Some (docs (App.serve updateBook req w).2 !! j)).
Proof.
  intros Hu. unfold App.serve.
  destruct (castObjectId (params_id req)) as [i|] eqn:Hid.
  2: { assert (updateBook req w = (inr (CastError _id), w)) as ->; [|done].
       unfold updateBook, bind, Book.findByIdAndUpdate, findByIdAndUpdate,
         castFilterId, bind. by rewrite Hid. }
  destruct (updateBook_plain_outcome req w i u Hid Hu)
    as [(e & Hr & _)|(set & _ & _ & Hr)].
  { by rewrite Hr. }
  cbn zeta in Hr. destruct (docs w !! i) as [d|] eqn:Hd.
  2: { by rewrite Hr. }
  case_bool_decide; rewrite Hr; cbn [fst snd docs]; [|done].
  split.
  - intros Hne. rewrite lookup_insert_ne; [done|]. by intros ->.
  - intros Hj. destruct (decide (i = j)) as [->|Hne].
    + by rewrite lookup_insert_eq.
    + by rewrite lookup_insert_ne.
Qed.

(** What a one-field update does to a stored record. *)
Lemma single_field_update (req : request) (w : world) (i : N) (d : object)
    (k : text) (v v' : value) :
  castObjectId (params_id req) = Some i →
  docs w !! i = Some d →
  body req = VObj [(k, v)] →
  plain_key k = true →
  k ≠ _id → k ≠ updatedAt →
  castUpdate (all_paths Book.bookSchema)
    (applyTimestampsToUpdate Book.bookSchema [(k, v)]) = inl [(k, v')] →
  invalid_paths (all_paths Book.bookSchema) [(k, v')] = [] →
  let d' := assign_prop updatedAt (VDate (now w)) (assign_prop k v' d) in
  App.serve updateBook req w
  = ({| code := 200; json := VObj d' |},
     World (<[i := d']> (docs w)) (now w) (nextId w)
       (FindOneAndUpdate i [(k, v'); (updatedAt, VDate (now w))] :: sent w)).
Proof.
  intros Hid Hd Hb Hk Hkid Hkup Hcast Hval d'.
  assert (plain_update (body req) = Some [(k, v)]) as Hu.
  { rewrite Hb. unfold plain_update. cbn. by rewrite Hk. }
  unfold App.serve, updateBook, bind, Book.findByIdAndUpdate.
  rewrite (UpdateFacts.findByIdAndUpdate_plain _ _ _ _ _ i _ Hid Hu).
  rewrite Hcast. cbn [runValidators]. rewrite Hval.
  rewrite (UpdateFacts.findOneAndUpdate_run _ _ d _ _ Hd). cbn zeta.
  cbn [timestamps Book.bookSchema new app foldl fst snd]. fold d'.
  rewrite bool_decide_eq_true_2; [done|].
  unfold id_of, d'. by rewrite !lookup_prop_assign_ne.
Qed.

(** The validators of a one-field update. *)
Lemma invalid_paths_single (ps : list (text * SchemaTypeOptions)) (k : text)
    (v : value) :
  (∀ o, (k, o) ∈ ps → validate o v = true) →
  invalid_paths ps [(k, v)] = [].
Proof.
  induction ps as [|[n o] ps IH]; intros Hok; [done|].
  cbn [invalid_paths lookup_prop].
  assert (invalid_paths ps [(k, v)] = []) as Hrest.
  { apply IH. intros o' Hin. apply Hok. by apply list_elem_of_further. }
  case_bool_decide as Hn; [|done]. subst n.
  pose proof (Hok o (list_elem_of_here _ _)) as Hv.
  destruct v; [done|..]; by rewrite Hv.
Qed.

Lemma status_validates (s : text) (o : SchemaTypeOptions) :
  s ∈ [txt "to-read"; txt "reading"; txt "finished"] →
  (txt "status", o) ∈ all_paths Book.bookSchema →
  validate o (VStr s) = true.
Proof.
  intros Hs Hin. unfold all_paths in Hin.
  cbn [paths timestamps Book.bookSchema app] in Hin.
  repeat (apply elem_of_cons in Hin as [Heq|Hin];
          [try discriminate Heq; injection Heq as -> |]).
  - by apply CreateMore.status_enum_ok.
  - by apply elem_of_nil in Hin.
Qed.

Lemma title_validates (t : text) (o : SchemaTypeOptions) :
  t ≠ [] →
  (txt "title", o) ∈ all_paths Book.bookSchema →
  validate o (VStr t) = true.
Proof.
  intros Ht Hin. unfold all_paths in Hin.
  cbn [paths timestamps Book.bookSchema app] in Hin.
  repeat (apply elem_of_cons in Hin as [Heq|Hin];
          [try discriminate Heq; injection Heq as -> |]).
  - unfold validate. cbn. by rewrite bool_decide_eq_false_2.
  - by apply elem_of_nil in Hin.
Qed.

(** X10. [PATCH] with [{ status: s }] for [s] in the enumeration, on a
    stored record: answered 200 with the record as stored afterwards, whose
    [status] is [s] and whose [updatedAt] is the current time; every other
    field, [_id] and [createdAt] included, is as before. *)
Theorem update_status (req : request) (w : world) (i : N) (d : object)
    (s : text) :
  castObjectId (params_id req) = Some i →
  docs w !! i = Some d →
  body req = VObj [(txt "status", VStr s)] →
  s ∈ [txt "to-read"; txt "reading"; txt "finished"] →
  ∃ d' : object,
    (App.serve updateBook req w).1 = {| code := 200; json := VObj d' |}
    ∧ docs (App.serve updateBook req w).2 !! i = Some d'
    ∧ lookup_prop (txt "status") d' = VStr s
    ∧ lookup_prop updatedAt d' = VDate (now w)
    ∧ ∀ k, k ≠ txt "status" → k ≠ updatedAt →
           lookup_prop k d' = lookup_prop k d.
Proof.
  intros Hid Hd Hb Hs.
  rewrite (single_field_update req w i d (txt "status") (VStr s) (VStr s)
             Hid Hd Hb); [|done..| |].
  - eexists. split; [reflexivity|]. cbn [fst snd docs].
    split_and!.
    + by rewrite lookup_insert_eq.
    + rewrite lookup_prop_assign_ne by done. apply lookup_prop_assign_eq.
    + apply lookup_prop_assign_eq.
    + intros k Hk1 Hk2. by rewrite !lookup_prop_assign_ne.
  - vm_compute. reflexivity.
  - apply invalid_paths_single. intros o. by apply status_validates.
Qed.

(** X11. [PATCH] with [{ title: t }] for a string [t] that is not blank,
    on a stored record: answered 200, and the title stored and returned is
    [t] trimmed (the schema's [trim: true] applies to updates too). *)
Theorem update_title_trimmed (req : request) (w : world) (i : N)
    (d : object) (t : text) :
  castObjectId (params_id req) = Some i →
  docs w !! i = Some d →
  body req = VObj [(txt "title", VStr t)] →
  JS.trim t ≠ [] →
  ∃ d' : object,
    (App.serve updateBook req w).1 = {| code := 200; json := VObj d' |}
    ∧ docs (App.serve updateBook req w).2 !! i = Some d'
    ∧ lookup_prop (txt "title") d' = VStr (JS.trim t)
    ∧ ∀ k, k ≠ txt "title" → k ≠ updatedAt →
           lookup_prop k d' = lookup_prop k d.
Proof.
  intros Hid Hd Hb Ht.
  rewrite (single_field_update req w i d (txt "title") (VStr t)
             (VStr (JS.trim t)) Hid Hd Hb); [|done..| |].
  - eexists. split; [reflexivity|]. cbn [fst snd docs].
    split_and!.
    + by rewrite lookup_insert_eq.
    + rewrite lookup_prop_assign_ne by done. apply lookup_prop_assign_eq.
    + intros k Hk1 Hk2. by rewrite !lookup_prop_assign_ne.
  - vm_compute. reflexivity.
  - apply invalid_paths_single. intros o. by apply title_validates.
Qed.

(** X12. A plain-mapping update whose [status] is a string outside the
    enumeration, or whose [title] or [author] is a string that is blank
    after trimming, fails like an out-of-range rating does: the handler
    throws ([ValidationError] naming the path, or the [CastError] of
    another field), the client receives 500, nothing is sent and the world
    is unchanged. *)
Theorem update_rejects_invalid (req : request) (w : world) (i : N)
    (u : object) :
  castObjectId (params_id req) = Some i →
  plain_update (body req) = Some u →
  (∃ s, lookup_prop (txt "status") u = VStr s
        ∧ s ∉ [txt "to-read"; txt "reading"; txt "finished"])
  ∨ (∃ t, lookup_prop (txt "title") u = VStr t ∧ JS.trim t = [])
  ∨ (∃ a, lookup_prop (txt "author") u = VStr a ∧ JS.trim a = []) →
  (∃ e, updateBook req w = (inr e, w)
        ∧ ((∃ p, e = CastError p) ∨ ∃ bad, e = ValidationError bad))
  ∧ code (App.serve updateBook req w).1 = 500
  ∧ (App.serve updateBook req w).2 = w.
Proof.
  intros Hid Hu Hbad.
  assert (∃ e, updateBook req w = (inr e, w)
               ∧ ((∃ p, e = CastError p) ∨ ∃ bad, e = ValidationError bad))
    as (e & Hrun & He).
  { destruct (updateBook_plain_outcome req w i u Hid Hu)
      as [Herr|(set & Hcast & Hval & _)]; [done|].
    exfalso.
    assert (∀ name o s,
              schema_path name (all_paths Book.bookSchema) = Some o →
              immutable o = false → type o = String_ →
              name ≠ createdAt → name ≠ updatedAt →
              lookup_prop name u = VStr s →
              validate o (apply_setters o (VStr s)) = true) as Hok.
    { intros name o s Hp Him Hty Hn1 Hn2 Hv.
      destruct (UpdateFacts.castUpdate_sets _ _ _ name o (VStr s) Hcast Hp Him)
        as (v' & Hc & Hset); [|done|].
      { unfold applyTimestampsToUpdate. cbn [timestamps Book.bookSchema].
        by rewrite !lookup_prop_delete_ne. }
      rewrite Hty in Hc. cbn in Hc. injection Hc as <-.
      destruct (validate o (apply_setters o (VStr s))) eqn:Hv'; [done|].
      pose proof (UpdateFacts.invalid_paths_elem
                    (all_paths Book.bookSchema) set name o
                    (UpdateFacts.schema_path_elem _ _ _ Hp)) as Hin.
      rewrite Hset, Hval in Hin. exfalso. eapply elem_of_nil, Hin; [|done].
      unfold apply_setters. by destruct (trim o). }
    destruct Hbad as [(s & Hs & Hout)|[(t & Ht & Hblank)|(a & Ha & Hblank)]].
    - pose proof (Hok (txt "status") _ s eq_refl eq_refl eq_refl
                    ltac:(done) ltac:(done) Hs) as Hv.
      cbn [apply_setters trim] in Hv.
      by rewrite CreateMore.status_enum_bad in Hv.
    - pose proof (Hok (txt "title") _ t eq_refl eq_refl eq_refl
                    ltac:(done) ltac:(done) Ht) as Hv.
      cbn [apply_setters trim] in Hv. rewrite Hblank in Hv. by cbn in Hv.
    - pose proof (Hok (txt "author") _ a eq_refl eq_refl eq_refl
                    ltac:(done) ltac:(done) Ha) as Hv.
      cbn [apply_setters trim] in Hv. rewrite Hblank in Hv. by cbn in Hv. }
  split; [by exists e|].
  unfold App.serve. rewrite Hrun. by split_and!.
Qed.

End WithEngine.
Lemma malformed_id_mutations_witness :
  @updateBook Sample.strictEngine Scenario.patch_malformed Sample.dune_world
  = (inr (CastError _id), Sample.dune_world)
  ∧ removeBook Scenario.patch_malformed Sample.dune_world
    = (inr (CastError _id), Sample.dune_world)
  ∧ code (App.serve (@updateBook Sample.strictEngine)
            Scenario.patch_malformed Sample.dune_world).1 = 500
  ∧ code (App.serve removeBook Scenario.patch_malformed
            Sample.dune_world).1 = 500
  ∧ (App.serve (@updateBook Sample.strictEngine) Scenario.patch_malformed
       Sample.dune_world).2 = Sample.dune_world
  ∧ (App.serve removeBook Scenario.patch_malformed Sample.dune_world).2
    = Sample.dune_world.
Proof.
  apply (@malformed_id_mutations Sample.strictEngine
           Scenario.patch_malformed Sample.dune_world).
  reflexivity.
Defined.

Lemma update_no_upsert_witness :
  docs (App.serve (@updateBook Sample.strictEngine) Scenario.patch_absent
          Sample.dune_world).2 = docs Sample.dune_world
  ∧ ((App.serve (@updateBook Sample.strictEngine) Scenario.patch_absent
        Sample.dune_world).1 = not_found
     ∨ code (App.serve (@updateBook Sample.strictEngine)
               Scenario.patch_absent Sample.dune_world).1 = 500).
Proof.
  apply (@update_no_upsert Sample.strictEngine Scenario.patch_absent
           Sample.dune_world 255 [(txt "status", VStr (txt "reading"))]);
    reflexivity.
Defined.

Lemma update_frame_witness :
  is_Some (docs (App.serve (@updateBook Sample.strictEngine)
                   (Scenario.patch_status "reading")
                   Sample.dune_world).2 !! 256).
Proof.
  apply (@update_frame Sample.strictEngine (Scenario.patch_status "reading")
           Sample.dune_world [(txt "status", VStr (txt "reading"))] 256);
    [reflexivity|].
  exists Sample.dune. reflexivity.
Defined.

Lemma update_status_witness :
  ∃ d' : object,
    (App.serve (@updateBook Sample.strictEngine)
       (Scenario.patch_status "reading") Sample.dune_world).1
    = {| code := 200; json := VObj d' |}
    ∧ docs (App.serve (@updateBook Sample.strictEngine)
              (Scenario.patch_status "reading") Sample.dune_world).2 !! 256
      = Some d'
    ∧ lookup_prop (txt "status") d' = VStr (txt "reading")
    ∧ lookup_prop updatedAt d' = VDate (now Sample.dune_world)
    ∧ ∀ k, k ≠ txt "status" → k ≠ updatedAt →
           lookup_prop k d' = lookup_prop k Sample.dune.
Proof.
  apply (@update_status Sample.strictEngine (Scenario.patch_status "reading")
           Sample.dune_world 256 Sample.dune (txt "reading"));
    [reflexivity..|].
  vm_compute. apply list_elem_of_further, list_elem_of_here.
Defined.

Lemma update_title_trimmed_witness :
  ∃ d' : object,
    (App.serve (@updateBook Sample.strictEngine) Scenario.patch_title
       Sample.dune_world).1 = {| code := 200; json := VObj d' |}
    ∧ docs (App.serve (@updateBook Sample.strictEngine) Scenario.patch_title
              Sample.dune_world).2 !! 256 = Some d'
    ∧ lookup_prop (txt "title") d'
      = VStr (JS.trim (txt "  Dune Messiah "))
    ∧ ∀ k, k ≠ txt "title" → k ≠ updatedAt →
           lookup_prop k d' = lookup_prop k Sample.dune.
Proof.
  apply (@update_title_trimmed Sample.strictEngine Scenario.patch_title
           Sample.dune_world 256 Sample.dune (txt "  Dune Messiah "));
    [reflexivity..|].
  vm_compute. discriminate.
Defined.

Lemma update_rejects_invalid_witness :
  (∃ e, @updateBook Sample.strictEngine (Scenario.patch_status "lost")
          Sample.dune_world = (inr e, Sample.dune_world)
        ∧ ((∃ p, e = CastError p) ∨ ∃ bad, e = ValidationError bad))
  ∧ code (App.serve (@updateBook Sample.strictEngine)
            (Scenario.patch_status "lost") Sample.dune_world).1 = 500
  ∧ (App.serve (@updateBook Sample.strictEngine)
       (Scenario.patch_status "lost") Sample.dune_world).2
    = Sample.dune_world.
Proof.
  apply (@update_rejects_invalid Sample.strictEngine
           (Scenario.patch_status "lost") Sample.dune_world 256
           [(txt "status", VStr (txt "lost"))]); [reflexivity..|].
  left. exists (txt "lost"). split; [reflexivity|].
  vm_compute. intros Hin.
  repeat (apply elem_of_cons in Hin as [Hin|Hin]; [discriminate|]).
  by apply elem_of_nil in Hin.
Defined.

(** X13. [removeBook] on a well-formed identifier nothing is stored under
    is answered 404 ("Libro no encontrado") and leaves the collection as it
    was. *)
Theorem remove_absent (req : request) (w : world) (i : N) :
  castObjectId (params_id req) = Some i →
  docs w !! i = None →
  (App.serve removeBook req w).1 = not_found
  ∧ docs (App.serve removeBook req w).2 = docs w.
Proof.
  intros Hid Hd. unfold App.serve.
  rewrite ByIdFacts.removeBook_run, Hid, Hd. cbn [fst snd docs].
  split; [done|]. by apply delete_id.
Qed.

Lemma remove_absent_witness :
  (App.serve removeBook Scenario.delete_absent Sample.dune_world).1
  = not_found
  ∧ docs (App.serve removeBook Scenario.delete_absent Sample.dune_world).2
    = docs Sample.dune_world.
Proof.
  apply (remove_absent Scenario.delete_absent Sample.dune_world 255);
    reflexivity.
Defined.

(** X14. [removeBook] removes its target and nothing else, and deleting
    again changes nothing more: every other identifier maps to what it
    mapped to before, the target is gone, a second delete of the same
    identifier is answered 404 and leaves the collection as the first one
    left it. *)
Theorem remove_only_target (req : request) (w : world) (i : N) :
  castObjectId (params_id req) = Some i →
  (∀ j, j ≠ i → docs (App.serve removeBook req w).2 !! j = docs w !! j)
  ∧ docs (App.serve removeBook req w).2 !! i = None
  ∧ (App.serve removeBook req (App.serve removeBook req w).2).1 = not_found
  ∧ docs (App.serve removeBook req (App.serve removeBook req w).2).2
    = docs (App.serve removeBook req w).2.
Proof.
  intros Hid. unfold App.serve.
  rewrite !ByIdFacts.removeBook_run, Hid. cbn [fst snd docs].
  rewrite !lookup_delete_eq. split_and!; try done.
  - intros j Hj. by rewrite lookup_delete_ne.
  - apply delete_id, lookup_delete_eq.
Qed.

Lemma remove_only_target_witness :
  (∀ j, j ≠ 256 →
        docs (App.serve removeBook Sample.get_dune Sample.dune_world).2 !! j
        = docs Sample.dune_world !! j)
  ∧ docs (App.serve removeBook Sample.get_dune Sample.dune_world).2 !! 256
    = None
  ∧ (App.serve removeBook Sample.get_dune
       (App.serve removeBook Sample.get_dune Sample.dune_world).2).1
    = not_found
  ∧ docs (App.serve removeBook Sample.get_dune
            (App.serve removeBook Sample.get_dune Sample.dune_world).2).2
    = docs (App.serve removeBook Sample.get_dune Sample.dune_world).2.
Proof.
  apply (remove_only_target Sample.get_dune Sample.dune_world 256).
  reflexivity.
Defined.

End UpdateMore.

(** ** More on paging *)

Module ListMore.
Import JS Eff Mongoose Express Controller.

Section WithBuiltins.
Context `{Builtins}.

(** X15. The values [listBooks] uses for paging are always finite and
    positive, whatever the query string holds and whatever [Number] makes
    of it; and a [page] or [limit] that is present, finite and positive is
    used as it is, however large and whether or not it is an integer. *)
Theorem paging_always_sane (req : request) :
  isFinite (safePage req) = true ∧ gt (safePage req) (of_Z 0) = true
  ∧ isFinite (safeLimit req) = true ∧ gt (safeLimit req) (of_Z 0) = true
  ∧ (truthy (lookup_prop (txt "page") (query req)) = true →
     isFinite (Number (lookup_prop (txt "page") (query req))) = true →
     gt (Number (lookup_prop (txt "page") (query req))) (of_Z 0) = true →
     safePage req = Number (lookup_prop (txt "page") (query req)))
  ∧ (truthy (lookup_prop (txt "limit") (query req)) = true →
     isFinite (Number (lookup_prop (txt "limit") (query req))) = true →
     gt (Number (lookup_prop (txt "limit") (query req))) (of_Z 0) = true →
     safeLimit req = Number (lookup_prop (txt "limit") (query req))).
Proof.
  unfold safePage, safeLimit. split_and!.
  - destruct (isFinite (page req) && gt (page req) (of_Z 0)) eqn:Hp;
      [by apply andb_true_iff in Hp as [? ?]|done].
  - destruct (isFinite (page req) && gt (page req) (of_Z 0)) eqn:Hp;
      [by apply andb_true_iff in Hp as [? ?]|done].
  - destruct (isFinite (limit req) && gt (limit req) (of_Z 0)) eqn:Hp;
      [by apply andb_true_iff in Hp as [? ?]|done].
  - destruct (isFinite (limit req) && gt (limit req) (of_Z 0)) eqn:Hp;
      [by apply andb_true_iff in Hp as [? ?]|done].
  - intros Hpresent Hfin Hpos. unfold page. rewrite Hpresent.
    by rewrite Hfin, Hpos.
  - intros Hpresent Hfin Hpos. unfold limit. rewrite Hpresent.
    by rewrite Hfin, Hpos.
Qed.

End WithBuiltins.

Lemma paging_always_sane_witness :
  @safePage Sample.decimalNumber Scenario.list_page_3 = of_Z 3
  ∧ @safeLimit Sample.decimalNumber Scenario.list_page_3 = of_Z 20.
Proof.
  destruct (@paging_always_sane Sample.decimalNumber Scenario.list_page_3)
    as (_ & _ & _ & _ & Hpage & Hlimit).
  split; [apply Hpage | apply Hlimit]; reflexivity.
Defined.

End ListMore.

(** ** The router and the middleware chain *)

Module RoutesFacts.
Import JS Eff Mongoose Express Controller Spec Routes.

Section WithEngine.
Context `{Engine} `{Builtins}.

Ltac in_list :=
  cbn; repeat first [apply list_elem_of_here | apply list_elem_of_further].

Lemma serve_updateBook_code (req : request) (w : world) :
  code (App.serve updateBook req w).1 ∈ [200; 404; 500].
Proof.
  unfold App.serve, updateBook, bind.
  destruct (Book.findByIdAndUpdate _ _ _ w) as [[[b|]|e] w']; in_list.
Qed.

(** X16. Every request is answered with one of five status codes: 200,
    201, 400, 404 or 500. *)
Theorem app_status_codes (m : method) (p : path) (q : object) (b : value)
    (w : world) :
  code (app m p q b w).1 ∈ [200; 201; 400; 404; 500].
Proof.
  unfold app.
  destruct m, p; cbn [router fst Middleware.notFound code];
    try (by in_list).
  - rewrite ListFacts.serve_listBooks. in_list.
  - unfold App.serve. rewrite ByIdFacts.getBook_run.
    destruct (castObjectId _) as [i|]; [|in_list].
    destruct (docs w !! i); in_list.
  - unfold App.serve.
    destruct (CreateMore.createBook_outcome
                {| params_id := params_of ApiBooks; query := q; body := b |} w)
      as [Hr|[[what Hr]|[[bad Hr]|[(doc & _ & Hr)|(fields & _ & _ & Hr)]]]];
      rewrite Hr; in_list.
  - pose proof (serve_updateBook_code
                  {| params_id := params_of (ApiBooksId id);
                     query := q; body := b |} w) as Hc.
    repeat (apply elem_of_cons in Hc as [->|Hc]); try in_list.
    by apply elem_of_nil in Hc.
  - unfold App.serve. rewrite ByIdFacts.removeBook_run.
    destruct (castObjectId _) as [i|]; [|in_list].
    destruct (docs w !! i); in_list.
Qed.

(** X17. A [GET] never changes the collection, whatever the path: the
    health check and the list operation leave the world as it is, get-by-id
    only reads. *)
Theorem get_is_read_only (p : path) (q : object) (b : value) (w : world) :
  docs (app GET p q b w).2 = docs w.
Proof.
  unfold app. destruct p; cbn [router snd]; try done.
  - by rewrite ListFacts.serve_listBooks.
  - unfold App.serve. rewrite ByIdFacts.getBook_run.
    by destruct (castObjectId _).
Qed.

(** X18. What the router does not route: [PUT] on any path, anything but
    [GET] on the health path, anything but [GET] and [POST] on the
    collection (so no request deletes or patches the collection as a
    whole), [POST] on a single book, and every other path. Such a request
    reaches no handler, is answered 404 "Ruta no encontrada", and leaves
    the world as it was. *)
Theorem unrouted_is_not_found (m : method) (p : path) (q : object)
    (b : value) (w : world) :
  m = PUT
  ∨ p = Elsewhere
  ∨ (p = ApiHealth ∧ m ≠ GET)
  ∨ (p = ApiBooks ∧ m ≠ GET ∧ m ≠ POST)
  ∨ ((∃ id, p = ApiBooksId id) ∧ m = POST) →
  router m p = None
  ∧ app m p q b w
    = ({| code := 404; json := error_body "Ruta no encontrada" |}, w).
Proof.
  intros Hcase. unfold app.
  destruct m, p; cbn [router]; try done; exfalso;
    destruct Hcase as [?|[?|[[? ?]|[(? & ? & ?)|[[? ?] ?]]]]]; congruence.
Qed.

(** X19. The collection stays consistent under every request whose
    [PATCH] body, if it is a [PATCH], is a plain mapping: every stored
    record still carries the key it is stored under as its [_id]. *)
Theorem app_keeps_consistent (m : method) (p : path) (q : object)
    (b : value) (w : world) :
  (m = PATCH → is_Some (plain_update b)) →
  consistent w →
  consistent (app m p q b w).2.
Proof.
  intros Hplain Hw. unfold app.
  destruct m, p; cbn [router snd]; try done.
  - by rewrite ListFacts.serve_listBooks.
  - by apply Invariant.getBook_consistent.
  - by apply Invariant.createBook_consistent.
  - destruct (Hplain eq_refl) as [u Hu].
    by apply (Invariant.updateBook_consistent _ _ u).
  - by apply Invariant.removeBook_consistent.
Qed.

End WithEngine.

Lemma unrouted_is_not_found_witness :
  @router Sample.strictEngine Sample.decimalNumber DELETE ApiBooks = None
  ∧ @app Sample.strictEngine Sample.decimalNumber DELETE ApiBooks [] VUndef
      Sample.dune_world
    = ({| code := 404; json := error_body "Ruta no encontrada" |},
       Sample.dune_world).
Proof.
  apply (@unrouted_is_not_found Sample.strictEngine Sample.decimalNumber
           DELETE ApiBooks [] VUndef Sample.dune_world).
  do 3 right. left. split_and!; [reflexivity | discriminate | discriminate].
Defined.

Lemma app_keeps_consistent_witness :
  consistent
    (@app Sample.strictEngine Sample.decimalNumber POST ApiBooks []
       (body Scenario.post_full) Sample.empty_world).2.
Proof.
  apply (@app_keeps_consistent Sample.strictEngine Sample.decimalNumber
           POST ApiBooks [] (body Scenario.post_full) Sample.empty_world).
  - discriminate.
  - exact Invariant.consistent_empty.
Defined.

End RoutesFacts.

(** ** Updates outside the plain mappings *)

Module PipelineFacts.
Import JS Eff Mongoose Express Controller Spec Pipeline.


End PipelineFacts.
